(** * WRPF UK records dashboard: normalisation, search and record reduction

    A shallow embedding of the data pipeline of [dash.py]: [load_data]
    (lines 25-38), the filtering half of [render_filters] (lines 44-49 and
    74-102), [best_per_class_and_lift] (lines 107-117), the frame that
    [render_table] builds (lines 122-154) and the frames that [main] hands
    to the tabs (lines 231, 235-236 and 241-247).

    A pandas DataFrame is a list of rows in index order, and a cell of
    one of its text columns is a [str] or NaN ([None]): this is how
    [pd.read_csv] reads a column in which some cell is neither missing nor
    a number.  A column of numbers and missing cells only is read at a
    numeric dtype.  This makes no difference for a column of missing cells
    only, which [fillna("")] turns into text as soon as the frame has a
    row, nor for whole numbers in plain notation in the Class column,
    which [astype(str)] writes back as they were read.  Other files with
    such a column are not covered: there [astype(str)] writes floats, and
    [.str] raises AttributeError on a column that is not of object dtype,
    as it does at line 32 when no line of the file has a division, and in
    [render_filters] and [main] when a column has no cell present and
    [load_data] returns no row.

    A Python [str] is modelled by its UTF-8 encoding, a finite float by
    the rational it denotes, and Python exceptions are values of [res].
    What Python and its libraries do outside the repository and cannot be
    written out here ([str.lower] on letters beyond ASCII, [re] on
    patterns with metacharacters, [pd.to_numeric], the order in which the
    default sort leaves tied rows) is a parameter of the development.
    The pandas operations follow the 2.x series. *)

From Stdlib Require Import Ascii String QArith Sorted Permutation.
From stdpp Require Import gmap strings list.

Local Open Scope string_scope.
Local Open Scope list_scope.

(** ** Exceptions *)

Inductive exn : Type :=
  | KeyError      (* dict lookup of an absent key *)
  | TypeError     (* '<' between a str and a float *)
  | ReError.      (* re.error: [re] refuses the pattern *)

Inductive res (A : Type) : Type :=
  | Ok (a : A)
  | Raise (e : exn).
Arguments Ok {A} a.
Arguments Raise {A} e.

#[global] Instance res_ret : MRet res := λ A a, Ok a.
#[global] Instance res_bind : MBind res := λ A B k m,
  match m with Ok a => k a | Raise e => Raise e end.
#[global] Instance res_fmap : FMap res := λ A B f m,
  match m with Ok a => Ok (f a) | Raise e => Raise e end.

(** ** Python [str] operations

    A text is held as its UTF-8 encoding: equality, concatenation,
    prefixes, suffixes and substrings of two texts are those of their
    bytes, and the order of two texts by code points is the order of their
    bytes.  Whitespace is what [str.isspace] accepts, each character in
    its encoding of one, two or three bytes. *)

Module Str.

(** The whitespace of one byte: TAB, LF, VT, FF, CR, FS, GS, RS, US and
    SPACE. *)
Definition isspace (c : ascii) : bool :=
  let n := nat_of_ascii c in
  (((9 <=? n) && (n <=? 13)) || ((28 <=? n) && (n <=? 32)))%nat.

(** The whitespace of two bytes: U+0085 and U+00A0. *)
Definition isspace2 (c d : ascii) : bool :=
  let c := nat_of_ascii c in
  let d := nat_of_ascii d in
  ((c =? 194) && ((d =? 133) || (d =? 160)))%nat.

(** The whitespace of three bytes: U+1680, U+2000 to U+200A, U+2028,
    U+2029, U+202F, U+205F and U+3000. *)
Definition isspace3 (c d e : ascii) : bool :=
  let c := nat_of_ascii c in
  let d := nat_of_ascii d in
  let e := nat_of_ascii e in
  (((c =? 225) && (d =? 154) && (e =? 128))
   || ((c =? 226) && (d =? 128)
       && (((128 <=? e) && (e <=? 138)) || (e =? 168) || (e =? 169)
           || (e =? 175)))
   || ((c =? 226) && (d =? 129) && (e =? 159))
   || ((c =? 227) && (d =? 128) && (e =? 128)))%nat.

(** The number of bytes of the whitespace character that [s] starts with,
    [0] when it starts with none. *)
Definition space_width (s : string) : nat :=
  match s with
  | EmptyString => 0
  | String c s1 =>
      if isspace c then 1
      else match s1 with
           | EmptyString => 0
           | String d s2 =>
               if isspace2 c d then 2
               else match s2 with
                    | EmptyString => 0
                    | String e _ => if isspace3 c d e then 3 else 0
                    end
           end
  end.

(** [s.lstrip()].  [skip] counts the bytes still to pass of a whitespace
    character that has been recognised. *)
Fixpoint lstrip_from (skip : nat) (s : string) : string :=
  match s with
  | EmptyString => EmptyString
  | String _ s' =>
      match skip with
      | S k => lstrip_from k s'
      | 0 => match space_width s with
             | S k => lstrip_from k s'
             | 0 => s
             end
      end
  end.

Definition lstrip : string → string := lstrip_from 0.

(** [s] is one whitespace character. *)
Definition is_space (s : string) : bool :=
  match space_width s with
  | 0 => false
  | S k => (S k =? String.length s)%nat
  end.

(** [s.rstrip()] *)
Fixpoint rstrip (s : string) : string :=
  match s with
  | EmptyString => EmptyString
  | String c s' =>
      let t := String c (rstrip s') in
      if is_space t then EmptyString else t
  end.

(** [s.strip()] *)
Definition strip (s : string) : string := rstrip (lstrip s).

(** [s.split()]: the maximal runs of characters that are not whitespace. *)
Fixpoint split_from (skip : nat) (s : string) : list string :=
  match s with
  | EmptyString => []
  | String c s' =>
      match skip with
      | S k => split_from k s'
      | 0 =>
          match space_width s with
          | S k => split_from k s'
          | 0 =>
              match s' with
              | EmptyString => [String c EmptyString]
              | String _ _ =>
                  match space_width s' with
                  | S _ => String c EmptyString :: split_from 0 s'
                  | 0 => match split_from 0 s' with
                         | w :: ws => String c w :: ws
                         | [] => [String c EmptyString]
                         end
                  end
              end
          end
      end
  end.

Definition split : string → list string := split_from 0.

(** [s.lower()] on a text of ASCII characters. *)
Definition lower_char (c : ascii) : ascii :=
  let n := nat_of_ascii c in
  if ((65 <=? n) && (n <=? 90))%nat then ascii_of_nat (n + 32) else c.

Fixpoint lower_ascii (s : string) : string :=
  match s with
  | EmptyString => EmptyString
  | String c s' => String (lower_char c) (lower_ascii s')
  end.

(** [s.endswith(suffix)] *)
Fixpoint endswith (suffix s : string) : bool :=
  if String.eqb s suffix then true
  else match s with
       | EmptyString => false
       | String _ s' => endswith suffix s'
       end.

(** [s[:-n]] for [n > 0] *)
Fixpoint drop_last (n : nat) (s : string) : string :=
  match s with
  | EmptyString => EmptyString
  | String c s' => if (String.length s <=? n)%nat then EmptyString
                   else String c (drop_last n s')
  end.

(** [x in xs] and [xs.index(x)] *)
Fixpoint index (x : string) (xs : list string) : option nat :=
  match xs with
  | [] => None
  | y :: ys => if String.eqb x y then Some 0 else S <$> index x ys
  end.

End Str.

(** ** A fragment of [re]

    Patterns that are a sequence of literal characters and dots, on ASCII
    text.  The alternatives of the two constant patterns of [main] are of
    this kind, and the search is run with it on the sample data; the
    search of [render_filters] itself takes [re] on patterns with
    metacharacters as a parameter, [re_pattern]. *)

Module Re.

Inductive atom : Type :=
  | Lit (c : ascii)
  | AnyChar.

Definition metachars : list ascii :=
  list_ascii_of_string ".^$*+?{}[]\|()".

Definition is_meta (c : ascii) : bool :=
  existsb (Ascii.eqb c) metachars.

Fixpoint compile (p : string) : option (list atom) :=
  match p with
  | EmptyString => Some []
  | String c p' =>
      if Ascii.eqb c "." then cons AnyChar <$> compile p'
      else if is_meta c then None
      else cons (Lit c) <$> compile p'
  end.

Definition newline : ascii := ascii_of_nat 10.

Definition atom_matches (a : atom) (c : ascii) : bool :=
  match a with
  | Lit d => Ascii.eqb d c
  | AnyChar => negb (Ascii.eqb c newline)
  end.

(** [pattern.match(s)] *)
Fixpoint match_here (p : list atom) (s : string) : bool :=
  match p, s with
  | [], _ => true
  | a :: p', String c s' => atom_matches a c && match_here p' s'
  | _ :: _, EmptyString => false
  end.

(** [pattern.search(s) is not None] *)
Fixpoint search (p : list atom) (s : string) : bool :=
  match_here p s ||
  match s with
  | EmptyString => false
  | String _ s' => search p s'
  end.

(** [re.sub(r"DT$", "", s)]: [$] matches at the end of the string and
    just before a newline that ends the string. *)
Definition sub_DT_end (s : string) : string :=
  if Str.endswith "DT" s then Str.drop_last 2 s
  else if Str.endswith (String "D" (String "T" (String newline EmptyString))) s
       then Str.drop_last 3 s +:+ String newline EmptyString
       else s.

End Re.

(** ** Constants (lines 12-14) *)

Definition LIFT_MAP : gmap string string :=
  <["Total" := "Total"]> (<["T" := "Total"]> (<["D" := "Deadlift"]>
  (<["B" := "Bench"]> (<["S" := "Squat"]> ∅)))).

Definition LIFT_ORDER : list string := ["Squat"; "Bench"; "Deadlift"; "Total"].

Definition INVALID_WEIGHT_CLASSES : gset string :=
  {[ "736"; "737"; "738"; "739"; "cell" ]}.

(** The strings [pd.read_csv] reads as NaN by default (pandas 2; "None"
    is not among them in pandas 1). *)
Definition NA_VALUES : gset string :=
  {[ ""; "#N/A"; "#N/A N/A"; "#NA"; "-1.#IND"; "-1.#QNAN"; "-NaN"; "-nan";
     "1.#IND"; "1.#QNAN"; "<NA>"; "N/A"; "NA"; "NULL"; "NaN"; "None";
     "n/a"; "nan"; "null" ]}.

(** ** Data model *)

(** One line of the CSV file: the text of each field. *)
Record CsvRow : Type := {
  csv_Full_Name : string;
  csv_Weight : string;
  csv_Class : string;
  csv_Division : string;
  csv_Lift : string;
  csv_Date : string;
  csv_Equipment : string;
  csv_Record_Name : string;
  csv_Record_Type : string;
  csv_Location : string;
  csv_Sex : string
}.

(** A row of the frame [pd.read_csv] returns, every column read at
    object dtype: a cell is a [str] or NaN. *)
Record RawRow : Type := {
  raw_Full_Name : option string;
  raw_Weight : option string;
  raw_Class : option string;
  raw_Division : option string;
  raw_Lift : option string;
  raw_Date : option string;
  raw_Equipment : option string;
  raw_Record_Name : option string;
  raw_Record_Type : option string;
  raw_Location : option string;
  raw_Sex : option string
}.

(** A cell of the [Weight] column that [load_data] returns: a float, or
    the empty string that [fillna("")] puts in place of NaN. *)
Inductive weight_val : Type :=
  | WNum (x : Q)
  | WBlank.

(** A row of the frame [load_data] returns.  The column [Date_parsed] is
    left out: nothing reads it. *)
Record Row : Type := {
  Full_Name : string;
  Weight : weight_val;
  Class : string;
  Division : string;
  Division_raw : string;
  Division_base : string;
  Testing : string;
  Lift : string;
  Date : string;
  Equipment : string;
  Record_Name : string;
  Record_Type : string;
  Location : string;
  Sex : string
}.

(** The filter selections, [st.session_state.filters]. *)
Record Sel : Type := {
  sex : string;
  division : string;
  testing_status : string;
  equipment : string;
  weight_class : string;
  search : string
}.

(** ** What is taken from Python and its libraries

    The behaviour that the pipeline takes from outside the repository and
    that is not written out in this file, [pd.to_numeric] apart, which is
    the parameter [to_numeric] of the sections below.  Nothing is assumed
    about these functions. *)

Class Lib : Type := {
  (** [s.lower()] on a text that holds a character beyond ASCII other
      than whitespace: the Unicode case mappings. *)
  lower_wide : string → string;
  (** [re.compile(pattern)] for a pattern that holds a metacharacter, as
      the test [.search(s) is not None] on a text [s]; [None] when [re]
      refuses the pattern with [re.error]. *)
  re_pattern : string → option (string → bool);
  (** The place that the sort of line 109 gives a row among the rows of
      its weight, the lower number first: [kind] is left at "quicksort",
      which is not stable. *)
  weight_ties : list Row → Row → nat;
  (** The same for the sort of line 246, on the rows of the location
      table. *)
  count_ties : list (string * nat) → string * nat → nat
}.

(** Text of ASCII characters only. *)
Definition is_ascii (s : string) : bool :=
  forallb (λ c, (nat_of_ascii c <? 128)%nat) (list_ascii_of_string s).

(** Text whose characters are ASCII characters or whitespace.  [skip]
    counts the bytes still to pass of a whitespace character that has
    been recognised. *)
Fixpoint ascii_or_space_from (skip : nat) (s : string) : bool :=
  match s with
  | EmptyString => true
  | String c s' =>
      match skip with
      | S k => ascii_or_space_from k s'
      | 0 => match Str.space_width s with
             | S k => ascii_or_space_from k s'
             | 0 => (nat_of_ascii c <? 128)%nat && ascii_or_space_from 0 s'
             end
      end
  end.

Definition ascii_or_space : string → bool := ascii_or_space_from 0.

(** [s.lower()].  In a text whose characters beyond ASCII are all
    whitespace the letters A to Z are lowered and nothing else changes;
    any other text is lowered by the Unicode case mappings. *)
Definition lower {lib : Lib} (s : string) : string :=
  if ascii_or_space s then Str.lower_ascii s else lower_wide s.
Arguments lower : simpl never.

(** [t in s] for two strings. *)
Fixpoint py_in (t s : string) : bool :=
  String.prefix t s ||
  match s with
  | EmptyString => false
  | String _ s' => py_in t s'
  end.

(** A pattern without any regex metacharacter. *)
Definition plain (pattern : string) : bool :=
  forallb (λ c, negb (Re.is_meta c)) (list_ascii_of_string pattern).

(** [re.compile(pattern)], as the test [.search(s) is not None] on a text
    [s]; [None] when [re] refuses the pattern with [re.error].  A pattern
    without metacharacter is found in the texts that contain it. *)
Definition re_search {lib : Lib} (pattern : string)
    : option (string → bool) :=
  if plain pattern then Some (py_in pattern) else re_pattern pattern.
Arguments re_search : simpl never.

(** ** [load_data] (lines 25-38) *)

Definition read_cell (s : string) : option string :=
  if decide (s ∈ NA_VALUES) then None else Some s.

(** Line 26, after the CSV has been split into fields. *)
Definition read_row (c : CsvRow) : RawRow :=
  {| raw_Full_Name := read_cell (csv_Full_Name c);
     raw_Weight := read_cell (csv_Weight c);
     raw_Class := read_cell (csv_Class c);
     raw_Division := read_cell (csv_Division c);
     raw_Lift := read_cell (csv_Lift c);
     raw_Date := read_cell (csv_Date c);
     raw_Equipment := read_cell (csv_Equipment c);
     raw_Record_Name := read_cell (csv_Record_Name c);
     raw_Record_Type := read_cell (csv_Record_Type c);
     raw_Location := read_cell (csv_Location c);
     raw_Sex := read_cell (csv_Sex c) |}.

Definition read_csv (csv : list CsvRow) : list RawRow := read_row <$> csv.

(** [Series.astype(str)] on an object column: NaN becomes ["nan"]. *)
Definition astype_str (c : option string) : string := default "nan" c.

(** Line 30: [df["Class"].astype(str).str.strip()]. *)
Definition class_token (r : RawRow) : string :=
  Str.strip (astype_str (raw_Class r)).

(** [fillna("")] on a cell of an object column. *)
Definition fillna (c : option string) : string := default "" c.

(** [fillna("")] on a cell of the float column [Weight]. *)
Definition fillna_weight (c : option Q) : weight_val :=
  match c with Some x => WNum x | None => WBlank end.

(** [.map({True: "Drug Tested", False: "Untested"})] *)
Definition testing_label (b : bool) : string :=
  if b then "Drug Tested" else "Untested".

(** [Series.replace(LIFT_MAP)] on one cell. *)
Definition replace_lift (s : string) : string := default s (LIFT_MAP !! s).

(** ** Sorting

    [sorted], [groupby] and the multi-key [sort_values] of line 115 are
    stable: rows with equal keys stay in their incoming order.  They are
    modelled by a stable insertion sort.  The single-key [sort_values] of
    lines 109 and 246 leave [kind] at its default, "quicksort", which is
    not stable: rows with equal keys come out in an order that pandas
    does not specify.  There the insertion sort runs on the key followed
    by the place that [weight_ties] or [count_ties] gives the row, so that
    every order of the tied rows is the result for some value of the
    parameter. *)

Section Sort.
Context {A : Type} (le : A → A → bool).

Fixpoint insert_by (x : A) (l : list A) : list A :=
  match l with
  | [] => [x]
  | y :: l' => if le x y then x :: l else y :: insert_by x l'
  end.

Fixpoint sort_by (l : list A) : list A :=
  match l with
  | [] => []
  | x :: l' => insert_by x (sort_by l')
  end.
End Sort.

(** Lexicographic combination of two comparisons: by [le1], and among
    elements that [le1] ties, by [le2]. *)
Definition lex {A : Type} (le1 le2 : A → A → bool) (a b : A) : bool :=
  le1 a b && (negb (le1 b a) || le2 a b).

(** Comparison by the place among tied rows. *)
Definition by_place {A : Type} (place : A → nat) (a b : A) : bool :=
  Nat.leb (place a) (place b).

(** Comparison of two floats of a key column sorted with
    [na_position="last"]: NaN after every number, NaN tied with NaN. *)
Definition num_le (a b : option Q) : bool :=
  match a, b with
  | Some x, Some y => Qle_bool x y
  | _, None => true
  | None, Some _ => false
  end.

(** [<=] on two cells of the [Weight] column.  Python raises on a float
    against a str; [weights_comparable] rules that case out before any
    sort runs, and the value given here for it is never used. *)
Definition weight_le (a b : weight_val) : bool :=
  match a, b with
  | WNum x, WNum y => Qle_bool x y
  | WBlank, _ => true
  | WNum _, WBlank => false
  end.

Definition is_num (w : weight_val) : bool :=
  match w with WNum _ => true | WBlank => false end.

(** The [Weight] cells are all floats or all strings. *)
Definition weights_comparable (df : list Row) : bool :=
  forallb (λ r, is_num (Weight r)) df || forallb (λ r, negb (is_num (Weight r))) df.

Section Pipeline.

Context {lib : Lib}.

(** [pd.to_numeric(_, errors="coerce")] on one string cell: its float,
    or [None] (NaN) when the text is not a number. *)
Variable to_numeric : string → option Q.

(** *** [load_data] *)

(** Lines 29-37 on one row that passed the two row filters. *)
Definition normalize (r : RawRow) : Row :=
  let weight := raw_Weight r ≫= to_numeric in                      (* 29 *)
  let division_raw := Str.strip <$> raw_Division r in               (* 32 *)
  let division_base := Re.sub_DT_end <$> division_raw in            (* 33 *)
  let testing :=
    testing_label <$> (Str.endswith "DT" <$> division_raw) in       (* 34 *)
  let lift := replace_lift <$> raw_Lift r in                        (* 35 *)
  {| Full_Name := fillna (raw_Full_Name r);                         (* 37 *)
     Weight := fillna_weight weight;
     Class := class_token r;                                        (* 30 *)
     Division := fillna (raw_Division r);
     Division_raw := fillna division_raw;
     Division_base := fillna division_base;
     Testing := fillna testing;
     Lift := fillna lift;
     Date := fillna (raw_Date r);
     Equipment := fillna (raw_Equipment r);
     Record_Name := fillna (raw_Record_Name r);
     Record_Type := fillna (raw_Record_Type r);
     Location := fillna (raw_Location r);
     Sex := fillna (raw_Sex r) |}.

(** [Series.notna()] on one cell. *)
Definition notna {T : Type} (c : option T) : bool :=
  match c with Some _ => true | None => false end.

(** Line 28: the row mask [Full Name notna & Weight notna]. *)
Definition has_name_and_weight (r : RawRow) : bool :=
  notna (raw_Full_Name r) && notna (raw_Weight r).

(** Line 31: the row mask [~Class.isin(INVALID_WEIGHT_CLASSES)]. *)
Definition valid_class (r : RawRow) : bool :=
  negb (bool_decide (class_token r ∈ INVALID_WEIGHT_CLASSES)).

Definition load_data (csv : list CsvRow) : list Row :=
  let df := read_csv csv in
  let df := List.filter has_name_and_weight df in
  let df := List.filter valid_class df in
  normalize <$> df.

(** *** [best_per_class_and_lift] *)

(** [df.sort_values("Weight", ascending=False)]: heaviest first, rows of
    equal weight in the order that the unstable sort leaves them; raises
    when a float meets a str. *)
Definition weight_ge (a b : Row) : bool := weight_le (Weight b) (Weight a).

Definition sort_weight_desc (df : list Row) : res (list Row) :=
  if weights_comparable df
  then Ok (sort_by (lex weight_ge (by_place (weight_ties df))) df)
  else Raise TypeError.

(** [.drop_duplicates(subset=["Class", "Lift"])]: the first row of each
    (Class, Lift) pair is kept. *)
Fixpoint drop_duplicates_from (seen : gset (string * string))
    (df : list Row) : list Row :=
  match df with
  | [] => []
  | r :: df' =>
      if bool_decide ((Class r, Lift r) ∈ seen)
      then drop_duplicates_from seen df'
      else r :: drop_duplicates_from ({[ (Class r, Lift r) ]} ∪ seen) df'
  end.

Definition drop_duplicates : list Row → list Row :=
  drop_duplicates_from ∅.

(** The two columns that [.assign] adds. *)
Definition class_num (r : Row) : option Q := to_numeric (Class r).

Definition lift_order (r : Row) : nat :=
  default 99 (Str.index (Lift r) LIFT_ORDER).

(** The order of [.sort_values(["_class_num", "Class", "_lift_order"])]. *)
Definition key_le : Row → Row → bool :=
  lex (λ a b, num_le (class_num a) (class_num b))
    (lex (λ a b, String.leb (Class a) (Class b))
         (λ a b, Nat.leb (lift_order a) (lift_order b))).

Definition best_per_class_and_lift (df : list Row) : res (list Row) :=
  sorted ← sort_weight_desc df;
  Ok (sort_by key_le (drop_duplicates sorted)).

End Pipeline.

(** ** [render_filters] (lines 43-102) *)

(** [Series.unique()]: the distinct values in order of first appearance. *)
Fixpoint unique (l : list string) : list string :=
  match l with
  | [] => []
  | x :: l' => x :: List.filter (λ y, negb (String.eqb y x)) (unique l')
  end.

(** Line 47. *)
Definition equipment_options (df : list Row) : list string :=
  sort_by String.leb (unique (Equipment <$> df)).

(** Line 48. *)
Definition equipment_label (e : string) : string :=
  if String.eqb e "Multi-ply" then "Equipped"
  else if String.eqb e "Bare" then "Raw" else e.

(** Line 49: [dict(zip(..))], a later pair replacing an earlier one with
    the same key. *)
Definition equipment_map (df : list Row) : gmap string string :=
  let options := equipment_options df in
  foldl (λ m kv, <[kv.1 := kv.2]> m) ∅
        (zip (equipment_label <$> options) options).

(** The columns the search looks into, in the order of lines 79-85. *)
Definition searched (r : Row) : list string :=
  [Full_Name r; Record_Name r; Class r; Division_base r; Equipment r;
   Testing r; Location r].

(** The mask of lines 79-85 for one compiled term. *)
Definition row_contains {lib : Lib} (found : string → bool) (r : Row) : bool :=
  existsb (λ cell, found (lower cell)) (searched r).

(** The loop of lines 77-86.  [Series.str.contains(term)] compiles [term]
    as a regular expression before it looks at any row. *)
Fixpoint search_loop {lib : Lib} (terms : list string) (filtered : list Row)
    : res (list Row) :=
  match terms with
  | [] => Ok filtered
  | term :: terms' =>
      match re_search term with
      | Some found =>
          search_loop terms' (List.filter (row_contains found) filtered)
      | None => Raise ReError
      end
  end.

(** One structured filter: lines 91-96 and 99-100. *)
Definition select_eq (col : Row → string) (choice : string)
    (filtered : list Row) : list Row :=
  if negb (String.eqb choice "All")
  then List.filter (λ r, String.eqb (col r) choice) filtered
  else filtered.

(** Lines 97-98. *)
Definition select_equipment (df : list Row) (choice : string)
    (filtered : list Row) : res (list Row) :=
  if negb (String.eqb choice "All") then
    match equipment_map df !! choice with
    | Some e => Ok (List.filter (λ r, String.eqb (Equipment r) e) filtered)
    | None => Raise KeyError
    end
  else Ok filtered.

(** Lines 74-102, [sel] being the selections read from the widgets: each
    of the five choices is "All" or one of the options of lines 63-67.
    For a selection outside the options, the lookup of line 98 raises. *)
Definition render_filters {lib : Lib} (df : list Row) (sel : Sel)
    : res (list Row * Sel) :=
  if negb (String.eqb (search sel) "") then
    let terms := Str.split (lower (search sel)) in
    filtered ← search_loop terms df;
    Ok (filtered, sel)
  else
    let filtered := select_eq Sex (sex sel) df in
    let filtered := select_eq Division_base (division sel) filtered in
    let filtered := select_eq Testing (testing_status sel) filtered in
    filtered ← select_equipment df (equipment sel) filtered;
    let filtered := select_eq Class (weight_class sel) filtered in
    Ok (filtered, sel).

(** ** [to_numeric] on decimal literals

    [parse_decimal] reads a text as the number parser of pandas does:
    optional whitespace, an optional sign, digits with an optional decimal
    point, an optional exponent, optional whitespace.  Its value is the
    float nearest to the decimal, ties going to the even mantissa.  The
    texts that [to_numeric] reads as an infinity are not covered.  It
    stands for [to_numeric] where the pipeline is run on the sample
    data. *)

Definition digit (c : ascii) : option Z :=
  let n := nat_of_ascii c in
  if ((48 <=? n) && (n <=? 57))%nat then Some (Z.of_nat (n - 48)) else None.

(** The whitespace that the number parser of pandas skips at both ends:
    TAB, LF, VT, FF, CR and SPACE. *)
Definition c_space (c : ascii) : bool :=
  let n := nat_of_ascii c in
  (((9 <=? n) && (n <=? 13)) || (n =? 32))%nat.

Fixpoint skip_spaces (s : string) : string :=
  match s with
  | String c s' => if c_space c then skip_spaces s' else s
  | EmptyString => EmptyString
  end.

(** The digits at the head of a text: their value after [m], their
    number, and the rest of the text. *)
Fixpoint digits (m : Z) (n : Z) (s : string) : Z * Z * string :=
  match s with
  | String c s' =>
      match digit c with
      | Some k => digits (10 * m + k) (n + 1) s'
      | None => (m, n, s)
      end
  | EmptyString => (m, n, s)
  end.

(** An optional sign. *)
Definition signed (s : string) : bool * string :=
  match s with
  | String "-" s' => (true, s')
  | String "+" s' => (false, s')
  | _ => (false, s)
  end.

(** The exponent part: nothing, or [e] or [E], an optional sign and
    digits, up to trailing whitespace. *)
Definition exponent (s : string) : option Z :=
  match s with
  | String c s' =>
      if Ascii.eqb c "e" || Ascii.eqb c "E" then
        let '(neg, s'') := signed s' in
        let '(e, n, rest) := digits 0 0 s'' in
        if (0 <? n)%Z && String.eqb (skip_spaces rest) ""
        then Some (if neg then - e else e)%Z else None
      else if String.eqb (skip_spaces s) "" then Some 0%Z else None
  | EmptyString => Some 0%Z
  end.

(** [a / b] to the nearest integer, ties to the even one. *)
Definition round_div (a b : Z) : Z :=
  let q := (a / b)%Z in
  match (2 * (a mod b) ?= b)%Z with
  | Lt => q
  | Gt => (q + 1)%Z
  | Eq => if Z.even q then q else (q + 1)%Z
  end.

(** [n / d / 2 ^ k] as a fraction. *)
Definition scaled (n d k : Z) : Z * Z :=
  if (0 <=? k)%Z then (n, d * 2 ^ k)%Z else (n * 2 ^ (- k), d)%Z.

(** The float nearest to a positive rational: a mantissa of 53 bits, or
    fewer below the smallest normal float.  The exponent is not bounded
    above: a number beyond the largest float is left as it is. *)
Definition nearest_float (q : Q) : Q :=
  let n := Qnum q in
  let d := Zpos (Qden q) in
  let k0 := (Z.log2 n - Z.log2 d - 52)%Z in
  let '(a, b) := scaled n d k0 in
  let k1 := if (a / b <? 2 ^ 52)%Z then (k0 - 1)%Z
            else if (2 ^ 53 <=? a / b)%Z then (k0 + 1)%Z else k0 in
  let k := Z.max k1 (-1074) in
  let '(a, b) := scaled n d k in
  let m := round_div a b in
  if (0 <=? k)%Z then inject_Z (m * 2 ^ k)
  else Qred (Qmake m (Z.to_pos (2 ^ (- k)))).

(** The value of a decimal as a float; a decimal that a float holds
    exactly is returned as it is written. *)
Definition to_float (q : Q) : Q :=
  if (Qnum q =? 0)%Z then q
  else if Qeq_bool (nearest_float q) q then q else nearest_float q.

Definition parse_decimal (s : string) : option Q :=
  let '(neg, s1) := signed (skip_spaces s) in
  let '(m1, n1, s2) := digits 0 0 s1 in
  let '(m, n2, s3) :=
    match s2 with
    | String "." s2' => digits m1 0 s2'
    | _ => (m1, 0%Z, s2)
    end in
  if (0 <? n1 + n2)%Z then
    e ← exponent s3;
    let p := (e - n2)%Z in
    let q := if (0 <=? p)%Z then inject_Z (m * 10 ^ p)
             else Qmake m (Z.to_pos (10 ^ (- p))) in
    Some (if neg then Qopp (to_float q) else to_float q)
  else None.

(** ** The selector options of [render_filters] (lines 16-19, 44-48) *)

Definition DIVISION_ORDER : list string :=
  [ "T14-15"; "T16-17"; "T18-19"; "Junior"; "Opens";
    "M40-49"; "M50-59"; "M60-69"; "M70-79" ].

(** [x in xs] for a list of strings. *)
Definition py_in_list (x : string) (xs : list string) : bool :=
  existsb (String.eqb x) xs.

(** Line 44: [list(dict.fromkeys(df["Division_base"].unique()))]. *)
Definition divs (df : list Row) : list string :=
  unique (unique (Division_base <$> df)).

(** Line 45. *)
Definition ordered_divs (df : list Row) : list string :=
  List.filter (λ d, py_in_list d (divs df)) DIVISION_ORDER
  ++ List.filter (λ d, negb (py_in_list d DIVISION_ORDER)) (divs df).

(** Line 48: the labels offered by the equipment selector. *)
Definition equipment_display (df : list Row) : list string :=
  equipment_label <$> equipment_options df.

(** Lines 51-54. *)
Definition default_state : Sel :=
  {| sex := "All"; division := "All"; testing_status := "All";
     equipment := "All"; weight_class := "All"; search := "" |}.

(** ** [render_table] (lines 122-161)

    The value of the model is the frame [display_df] that the function
    shows and offers for download; the Streamlit calls are left out. *)

(** [ValueError] is raised by [float("")]; the other exceptions of
    [render_table] are those of [best_per_class_and_lift]. *)
Inductive page_exn : Type :=
  | Propagated (e : exn)
  | ValueError.

Inductive outcome (A : Type) : Type :=
  | Done (a : A)
  | Failed (e : page_exn).
Arguments Done {A} a.
Arguments Failed {A} e.

#[global] Instance outcome_ret : MRet outcome := λ A a, Done a.
#[global] Instance outcome_bind : MBind outcome := λ A B k m,
  match m with Done a => k a | Failed e => Failed e end.

Definition propagate {A : Type} (m : res A) : outcome A :=
  match m with Ok a => Done a | Raise e => Failed (Propagated e) end.

(** The lambda of line 145. *)
Definition lift_type_label {lib : Lib} (x : string) : string :=
  if py_in "single" (lower x) || py_in "bench only" (lower x)
     || py_in "deadlift only" (lower x)
  then "Single Lift" else "Full Power".

(** A cell of the displayed [Weight] column: a Python int or a float. *)
Inductive weight_cell : Type :=
  | CInt (n : Z)
  | CFloat (x : Q).

Definition cell_value (c : weight_cell) : Q :=
  match c with CInt n => inject_Z n | CFloat x => x end.

Definition is_int_cell (c : weight_cell) : bool :=
  match c with CInt _ => true | CFloat _ => false end.

(** [float(x).is_integer()] and [int(x)]. *)
Definition is_integer (x : Q) : bool :=
  (Z.rem (Qnum x) (Zpos (Qden x)) =? 0)%Z.

Definition to_int (x : Q) : Z := Z.quot (Qnum x) (Zpos (Qden x)).

(** The lambda of line 148 on one cell.  [pd.notna("")] is true, so the
    empty-string weight reaches [float("")]. *)
Definition show_weight (w : weight_val) : outcome weight_cell :=
  match w with
  | WNum x => Done (if is_integer x then CInt (to_int x) else CFloat x)
  | WBlank => Failed ValueError
  end.

Fixpoint show_each (ws : list weight_val) : outcome (list weight_cell) :=
  match ws with
  | [] => Done []
  | w :: ws' => c ← show_weight w; cs ← show_each ws'; Done (c :: cs)
  end.

(** [Series.apply] infers the dtype of its result: int64 when every cell
    is an int, float64 as soon as one cell is a float. *)
Definition infer_cells (cells : list weight_cell) : list weight_cell :=
  if forallb is_int_cell cells then cells
  else (λ c, CFloat (cell_value c)) <$> cells.

(** Lines 147-149. *)
Definition show_weights (ws : list weight_val) : outcome (list weight_cell) :=
  cells ← show_each ws; Done (infer_cells cells).

(** The dict of lines 151-154. *)
Definition TABLE_EQUIPMENT : gmap string string :=
  <["Bare" := "Raw"]> (<["Multi-ply" := "Equipped"]> ∅).

Definition show_equipment (e : string) : string :=
  default e (TABLE_EQUIPMENT !! e).

(** A row of [display_df], under the column names of lines 139-142. *)
Record DisplayRow : Type := {
  d_Class : string;
  d_Lift : string;
  d_Weight : weight_cell;
  d_Name : string;
  d_Gender : string;
  d_Division : string;
  d_Testing : string;
  d_Equipment : string;
  d_Lift_Type : string;
  d_Date : string;
  d_Event : string
}.

Definition display_row {lib : Lib} (r : Row) (w : weight_cell) : DisplayRow :=
  {| d_Class := Class r;
     d_Lift := Lift r;
     d_Weight := w;
     d_Name := Full_Name r;
     d_Gender := Sex r;
     d_Division := Division_base r;
     d_Testing := Testing r;
     d_Equipment := show_equipment (Equipment r);
     d_Lift_Type := lift_type_label (Record_Type r);
     d_Date := Date r;
     d_Event := Location r |}.

(** ** [main] (lines 231-247): the frames of the tabs *)

(** [re.IGNORECASE] on one atom.  The letters A to Z match their small
    letters; the few characters beyond ASCII that [re] also folds onto an
    ASCII letter are not covered. *)
Definition atom_matches_ci (a : Re.atom) (c : ascii) : bool :=
  match a with
  | Re.Lit d => Ascii.eqb (Str.lower_char d) (Str.lower_char c)
  | Re.AnyChar => negb (Ascii.eqb c Re.newline)
  end.

Fixpoint match_here_ci (p : list Re.atom) (s : string) : bool :=
  match p, s with
  | [], _ => true
  | a :: p', String c s' => atom_matches_ci a c && match_here_ci p' s'
  | _ :: _, EmptyString => false
  end.

Fixpoint search_ci (p : list Re.atom) (s : string) : bool :=
  match_here_ci p s ||
  match s with
  | EmptyString => false
  | String _ s' => search_ci p s'
  end.

(** The alternatives of a pattern [a|b|c]. *)
Fixpoint alternatives (p : string) : list string :=
  match p with
  | EmptyString => [EmptyString]
  | String c p' =>
      if Ascii.eqb c "|" then EmptyString :: alternatives p'
      else match alternatives p' with
           | a :: rest => String c a :: rest
           | [] => [String c EmptyString]
           end
  end.

Fixpoint compile_each (alts : list string) : option (list (list Re.atom)) :=
  match alts with
  | [] => Some []
  | a :: alts' =>
      match Re.compile a, compile_each alts' with
      | Some p, Some ps => Some (p :: ps)
      | _, _ => None
      end
  end.

(** The mask [Series.str.contains(pat, case=False, na=False)]. *)
Definition contains_ci (pat : string) (cells : list string) : res (list bool) :=
  match compile_each (alternatives pat) with
  | Some ps => Ok ((λ cell, existsb (λ p, search_ci p cell) ps) <$> cells)
  | None => Raise ReError
  end.

(** [df[mask]] *)
Fixpoint select_mask {A : Type} (df : list A) (mask : list bool) : list A :=
  match df, mask with
  | r :: df', b :: mask' =>
      if b then r :: select_mask df' mask' else select_mask df' mask'
  | _, _ => []
  end.

(** Line 231. *)
Definition full_power (filtered : list Row) : res (list Row) :=
  mask ← contains_ci "Single" (Record_Type <$> filtered);
  Ok (select_mask filtered (negb <$> mask)).

(** Lines 235-236. *)
Definition single_lifts (filtered : list Row) : res (list Row) :=
  mask ← contains_ci "Single|Bench Only|Deadlift Only" (Record_Type <$> filtered);
  let isin := (λ r, py_in_list (Lift r) ["Bench"; "Deadlift"]) <$> filtered in
  Ok (select_mask filtered (zip_with andb mask isin)).

(** Lines 241-247: the rows with a non-blank location, grouped by
    location (the groups come in the order of their keys), counted, and
    sorted by count, largest first, by the unstable default sort. *)
Definition count_ge (a b : string * nat) : bool := Nat.leb (snd b) (snd a).

Definition location_counts {lib : Lib} (filtered : list Row)
    : list (string * nat) :=
  let kept :=
    List.filter (λ r, negb (String.eqb (Str.strip (Location r)) "")) filtered in
  let keys := sort_by String.leb (unique (Location <$> kept)) in
  let sizes :=
    (λ k, (k, List.length (List.filter (λ r, String.eqb (Location r) k) kept)))
      <$> keys in
  sort_by (lex count_ge (by_place (count_ties sizes))) sizes.

Section Tables.

Context {lib : Lib}.
Variable to_numeric : string → option Q.

Definition render_table (filtered : list Row) (sel : Sel)
    : outcome (list DisplayRow) :=
  let show_all := negb (String.eqb (search sel) "") in
  table_data ←
    (if show_all then Done filtered
     else propagate (best_per_class_and_lift to_numeric filtered));
  cells ← show_weights (Weight <$> table_data);
  Done (zip_with display_row table_data cells).

End Tables.

(** ** Vocabulary of the properties *)

(** Two elements that a comparison ties. *)
Definition tied {A : Type} (le : A → A → bool) (a b : A) : bool :=
  le a b && le b a.

(** The (Class, Lift) pair of a row, and the rows of one pair. *)
Definition pair_of (r : Row) : string * string := (Class r, Lift r).

Definition in_group (c l : string) (r : Row) : bool :=
  String.eqb (Class r) c && String.eqb (Lift r) l.

(** The rank of a lift in the canonical order: Squat, Bench, Deadlift,
    Total, and after them every other value. *)
Definition canonical_rank (lift : string) : nat :=
  if String.eqb lift "Squat" then 0
  else if String.eqb lift "Bench" then 1
  else if String.eqb lift "Deadlift" then 2
  else if String.eqb lift "Total" then 3
  else 4.

(** The pattern that a term without metacharacter compiles to. *)
Definition literal (term : string) : list Re.atom :=
  Re.Lit <$> list_ascii_of_string term.

(** [t in s] *)
Definition is_substring (t s : string) : Prop :=
  ∃ pre post, s = pre +:+ t +:+ post.

(** A structured selection accepts a value: it is "All" or equal to it. *)
Definition accepts (choice value : string) : bool :=
  String.eqb choice "All" || String.eqb value choice.

(** The equipment selection accepts a row: it is "All", or the row has
    the raw value that [equipment_map] gives for the label. *)
Definition equipment_accepts (df : list Row) (choice : string) (r : Row)
    : bool :=
  String.eqb choice "All" ||
  match equipment_map df !! choice with
  | Some e => String.eqb (Equipment r) e
  | None => false
  end.

(** A row matches one search term. *)
Definition term_hits {lib : Lib} (term : string) (r : Row) : bool :=
  match re_search term with
  | Some found => row_contains found r
  | None => false
  end.

(** The terms of a query, as line 75 computes them. *)
Definition terms_of {lib : Lib} (query : string) : list string :=
  Str.split (lower query).

(** A frame holds a numeric weight, a blank weight. *)
Definition has_numeric (df : list Row) : Prop :=
  ∃ r, In r df ∧ is_num (Weight r) = true.

Definition has_blank (df : list Row) : Prop :=
  ∃ r, In r df ∧ Weight r = WBlank.

(** The text with the given bytes. *)
Definition bytes (l : list nat) : string :=
  string_of_list_ascii (ascii_of_nat <$> l).

(** The characters for which [str.isspace] holds, each in UTF-8: U+0009
    to U+000D, U+001C to U+0020, U+0085, U+00A0, U+1680, U+2000 to U+200A,
    U+2028, U+2029, U+202F, U+205F, U+3000. *)
Definition WHITESPACE : list string :=
  [ bytes [9]; bytes [10]; bytes [11]; bytes [12]; bytes [13];
    bytes [28]; bytes [29]; bytes [30]; bytes [31]; bytes [32];
    bytes [194; 133]; bytes [194; 160];
    bytes [225; 154; 128];
    bytes [226; 128; 128]; bytes [226; 128; 129]; bytes [226; 128; 130];
    bytes [226; 128; 131]; bytes [226; 128; 132]; bytes [226; 128; 133];
    bytes [226; 128; 134]; bytes [226; 128; 135]; bytes [226; 128; 136];
    bytes [226; 128; 137]; bytes [226; 128; 138];
    bytes [226; 128; 168]; bytes [226; 128; 169]; bytes [226; 128; 175];
    bytes [226; 129; 159];
    bytes [227; 128; 128] ].

(** A text made of whitespace characters only. *)
Inductive whitespace_only : string → Prop :=
  | ws_empty : whitespace_only ""
  | ws_more (w s : string) :
      In w WHITESPACE → whitespace_only s → whitespace_only (w +:+ s).

(** Two rows weigh the same. *)
Definition same_weight (a b : Row) : Prop :=
  match Weight a, Weight b with
  | WNum x, WNum y => (x == y)%Q
  | WBlank, WBlank => True
  | _, _ => False
  end.

(** Row [a] weighs at most what row [b] weighs, blank weights counting as
    equal. *)
Definition at_most (a b : Row) : Prop :=
  match Weight a, Weight b with
  | WNum x, WNum y => (x <= y)%Q
  | WBlank, WBlank => True
  | _, _ => False
  end.

(** ** Sample data *)

(** A library for the sample data, which has no letter beyond ASCII and
    no metacharacter other than the dot: text beyond ASCII is left as it
    is, a pattern is one of the fragment [Re], and tied rows stay in their
    incoming order.  It stands for Python on the sample data only: a
    pattern outside the fragment is refused here, whatever [re] does with
    it. *)
Definition sample_lib : Lib :=
  {| lower_wide := Str.lower_ascii;
     re_pattern := λ p, Re.search <$> Re.compile p;
     weight_ties := λ _ _, 0;
     count_ties := λ _ _, 0 |}.

(** The same with tied rows in the reverse of their incoming order, the
    rows being told apart by their names. *)
Fixpoint position (name : string) (df : list Row) : nat :=
  match df with
  | [] => 0
  | r :: df' => if String.eqb (Full_Name r) name then 0 else S (position name df')
  end.

Definition later_first : Lib :=
  {| lower_wide := Str.lower_ascii;
     re_pattern := λ p, Re.search <$> Re.compile p;
     weight_ties := λ df r, List.length df - position (Full_Name r) df;
     count_ties := λ _ _, 0 |}.

Definition csv_row (name weight class division lift equip location : string)
    : CsvRow :=
  {| csv_Full_Name := name; csv_Weight := weight; csv_Class := class;
     csv_Division := division; csv_Lift := lift; csv_Date := "";
     csv_Equipment := equip; csv_Record_Name := ""; csv_Record_Type := "";
     csv_Location := location; csv_Sex := "M" |}.

Definition sample_csv : list CsvRow :=
  [ csv_row "Ann" "200" "100" "Junior" "S" "Bare" "Manchester";
    csv_row "Bob" "205" "100" "JuniorDT" "S" "Bare" "Leeds";
    csv_row "Dan" "100" "cell" "Opens" "B" "Multi-ply" "Leeds";
    csv_row "" "100" "90" "Opens" "B" "Multi-ply" "Leeds";
    csv_row "Eve" "82.5" "140+" "Opens DT " "D" "Sleeves" "Leeds" ].

Definition ann : Row :=
  {| Full_Name := "Ann"; Weight := WNum 200; Class := "100";
     Division := "Junior"; Division_raw := "Junior";
     Division_base := "Junior"; Testing := "Untested"; Lift := "Squat";
     Date := ""; Equipment := "Bare"; Record_Name := ""; Record_Type := "";
     Location := "Manchester"; Sex := "M" |}.

Definition bob : Row :=
  {| Full_Name := "Bob"; Weight := WNum 205; Class := "100";
     Division := "JuniorDT"; Division_raw := "JuniorDT";
     Division_base := "Junior"; Testing := "Drug Tested"; Lift := "Squat";
     Date := ""; Equipment := "Bare"; Record_Name := ""; Record_Type := "";
     Location := "Leeds"; Sex := "M" |}.

Definition eve : Row :=
  {| Full_Name := "Eve"; Weight := WNum 82.5; Class := "140+";
     Division := "Opens DT "; Division_raw := "Opens DT";
     Division_base := "Opens "; Testing := "Drug Tested"; Lift := "Deadlift";
     Date := ""; Equipment := "Sleeves"; Record_Name := ""; Record_Type := "";
     Location := "Leeds"; Sex := "M" |}.

(** A row of the reducer's input, reduced to the columns it reads. *)
Definition entry (name : string) (w : Q) (class lift : string) : Row :=
  {| Full_Name := name; Weight := WNum w; Class := class;
     Division := "Opens"; Division_raw := "Opens"; Division_base := "Opens";
     Testing := "Untested"; Lift := lift; Date := ""; Equipment := "Bare";
     Record_Name := ""; Record_Type := ""; Location := ""; Sex := "M" |}.

Definition no_filters (query : string) : Sel :=
  {| sex := "All"; division := "All"; testing_status := "All";
     equipment := "All"; weight_class := "All"; search := query |}.

Definition cat : Row :=
  {| Full_Name := "Cat"; Weight := WBlank; Class := "110";
     Division := "Opens"; Division_raw := "Opens"; Division_base := "Opens";
     Testing := "Untested"; Lift := "Bench"; Date := "";
     Equipment := "Bare"; Record_Name := ""; Record_Type := "";
     Location := "Leeds"; Sex := "M" |}.


Definition women_raw (query : string) : Sel :=
  {| sex := "F"; division := "Opens"; testing_status := "Untested";
     equipment := "Raw"; weight_class := "100"; search := query |}.

(** A file with a line whose weight is not a number and a line without a
    weight, and a file with a line without a division. *)
Definition unparseable_csv : list CsvRow :=
  [ csv_row "Ann" "200" "100" "Junior" "S" "Bare" "Manchester";
    csv_row "Cat" "abc" "110" "Opens" "B" "Bare" "Leeds";
    csv_row "Dee" "" "120" "Opens" "D" "Bare" "Leeds" ].


(** Frames with tied rows: two rows of one pair at the greatest weight,
    and two rows of one class with lifts outside the canonical four at
    one weight. *)
Definition tied_frame : list Row :=
  [ entry "r0" 100 "90" "Squat"; entry "r1" 100 "90" "Bench";
    entry "r2" 200 "100" "Squat"; entry "r3" 200 "100" "Squat" ].

Definition curl_frame : list Row :=
  [ entry "a0" 100 "50" "Squat"; entry "a1" 100 "50" "Bench";
    entry "b2" 200 "60" "Press"; entry "b3" 200 "60" "Curl" ].

(** A frame with numeric and non-numeric classes and lifts in and outside
    the canonical order. *)
Definition mixed_frame : list Row :=
  [ entry "a" 300 "140+" "Squat"; entry "b" 500 "100" "Total";
    entry "c" 120 "82.5" "Bench"; entry "d" 180 "100" "Squat";
    entry "e" 90 "100" "Strict Curl"; entry "f" 310 "140+" "Squat";
    entry "g" 250 "100" "Deadlift"; entry "h" 60 "9" "Total" ].

(** A query of a space, a no-break space, an ideographic space and a tab. *)
Definition blank_query : string :=
  bytes [32] +:+ bytes [194; 160] +:+ bytes [227; 128; 128] +:+ bytes [9].

(** Only the equipment selector set. *)
Definition raw_only : Sel :=
  {| sex := "All"; division := "All"; testing_status := "All";
     equipment := "Raw"; weight_class := "All"; search := "" |}.

(** A bench-only record. *)
Definition gil : Row :=
  {| Full_Name := "Gil"; Weight := WNum 140; Class := "90";
     Division := "Opens"; Division_raw := "Opens"; Division_base := "Opens";
     Testing := "Untested"; Lift := "Bench"; Date := "";
     Equipment := "Bare"; Record_Name := ""; Record_Type := "Bench Only";
     Location := "Leeds"; Sex := "M" |}.

(** * Properties *)

Example lower_ex :
  Str.lower_ascii "110 Junior Manchester" = "110 junior manchester".
Proof. reflexivity. Qed.
Example split_ex :
  Str.split "  110 junior  manchester " = ["110"; "junior"; "manchester"].
Proof. reflexivity. Qed.
Example strip_ex : Str.strip "  Junior DT  " = "Junior DT".
Proof. reflexivity. Qed.

(** A no-break space (U+00A0), an em space (U+2003) and an ideographic
    space (U+3000) are whitespace as a space is. *)
Example strip_wide :
  Str.strip (bytes [194; 160] +:+ "Opens" +:+ bytes [227; 128; 128; 32])
  = "Opens".
Proof. reflexivity. Qed.
Example split_wide :
  Str.split ("a" +:+ bytes [226; 128; 131] +:+ "bc" +:+ bytes [194; 160])
  = ["a"; "bc"].
Proof. vm_compute. reflexivity. Qed.
Example sub_ex : Re.sub_DT_end "JuniorDT" = "Junior" ∧ Re.sub_DT_end "DTX" = "DTX".
Proof. split; reflexivity. Qed.

Example parse_decimal_ex :
  parse_decimal "82.5" = Some 82.5%Q
  ∧ parse_decimal " 1e3 " = Some 1000%Q
  ∧ parse_decimal "0.1" = Some (3602879701896397 # 36028797018963968)%Q
  ∧ parse_decimal "abc" = None
  ∧ parse_decimal "140+" = None.
Proof. repeat split; vm_compute; reflexivity. Qed.

Example load_sample : load_data parse_decimal sample_csv = [ann; bob; eve].
Proof. vm_compute. reflexivity. Qed.
Example reduce_sample :
  best_per_class_and_lift (lib := sample_lib) parse_decimal [ann; bob; eve]
  = Ok [bob; eve].
Proof. vm_compute. reflexivity. Qed.

(** ** Facts about the string operations *)

Lemma append_cons (a : ascii) (s t : string) :
  String a s +:+ t = String a (s +:+ t).
Proof. reflexivity. Qed.

Lemma append_assoc (s t u : string) : (s +:+ t) +:+ u = s +:+ (t +:+ u).
Proof.
  induction s as [|a s IH]; [reflexivity|].
  rewrite !append_cons, IH. reflexivity.
Qed.

Lemma append_nonempty (pre : string) (c : ascii) :
  pre +:+ String c EmptyString ≠ EmptyString.
Proof. destruct pre; discriminate. Qed.

Lemma endswith_unfold (suf s : string) :
  Str.endswith suf s =
  if String.eqb s suf then true
  else match s with
       | EmptyString => false
       | String _ s' => Str.endswith suf s'
       end.
Proof. destruct s; reflexivity. Qed.

Lemma endswith_app (suf pre : string) : Str.endswith suf (pre +:+ suf) = true.
Proof.
  induction pre as [|a pre IH]; rewrite endswith_unfold.
  - simpl (_ +:+ _). rewrite String.eqb_refl. reflexivity.
  - destruct (String.eqb _ _); [reflexivity|]. simpl. exact IH.
Qed.

Lemma endswith_inv (suf s : string) :
  Str.endswith suf s = true → ∃ pre, s = pre +:+ suf.
Proof.
  induction s as [|a s IH]; rewrite endswith_unfold.
  - destruct (String.eqb_spec EmptyString suf) as [<-|]; [|discriminate].
    exists EmptyString. reflexivity.
  - destruct (String.eqb_spec (String a s) suf) as [<-|_].
    + exists EmptyString. reflexivity.
    + intros H. destruct (IH H) as [pre ->]. exists (String a pre). reflexivity.
Qed.

Lemma length_append (s t : string) :
  String.length (s +:+ t) = String.length s + String.length t.
Proof.
  induction s as [|a s IH]; [reflexivity|].
  rewrite append_cons. cbn [String.length]. rewrite IH. reflexivity.
Qed.

Lemma drop_last_unfold (n : nat) (s : string) :
  Str.drop_last n s =
  match s with
  | EmptyString => EmptyString
  | String c s' => if (String.length s <=? n)%nat then EmptyString
                   else String c (Str.drop_last n s')
  end.
Proof. destruct s; reflexivity. Qed.

Lemma drop_last_app (pre suf : string) :
  Str.drop_last (String.length suf) (pre +:+ suf) = pre.
Proof.
  induction pre as [|a pre IH]; rewrite drop_last_unfold.
  - destruct suf as [|b suf]; [reflexivity|].
    change (EmptyString +:+ String b suf) with (String b suf).
    cbv beta iota. rewrite Nat.leb_refl. reflexivity.
  - change (String a pre +:+ suf) with (String a (pre +:+ suf)).
    cbv beta iota. rewrite IH.
    destruct (Nat.leb_spec (String.length (String a (pre +:+ suf)))
                (String.length suf)) as [H|_]; [|reflexivity].
    cbn [String.length] in H. rewrite length_append in H. lia.
Qed.

(** *** Whitespace at the two ends of a text *)

(** A whitespace character at the head of a text is still there when the
    text goes on. *)
Lemma space_width_app (p w : string) :
  Str.space_width p ≠ 0 → Str.space_width (p +:+ w) = Str.space_width p.
Proof.
  destruct p as [|c p]; [done|]. rewrite append_cons. cbn [Str.space_width].
  destruct (Str.isspace c); [reflexivity|].
  destruct p as [|d p]; [done|]. rewrite append_cons.
  destruct (Str.isspace2 c d); [reflexivity|].
  destruct p as [|e p]; [done|]. rewrite append_cons. reflexivity.
Qed.

(** What [lstrip] returns starts with no whitespace. *)
Lemma lstrip_from_head (k : nat) (s : string) :
  Str.space_width (Str.lstrip_from k s) = 0.
Proof.
  revert k. induction s as [|c s IH]; intros k; [reflexivity|].
  cbn [Str.lstrip_from]. destruct k as [|k]; [|apply IH].
  destruct (Str.space_width (String c s)) as [|k] eqn:E; [exact E|apply IH].
Qed.

Lemma lstrip_id (s : string) : Str.space_width s = 0 → Str.lstrip s = s.
Proof.
  intros H. destruct s as [|c s]; [reflexivity|].
  unfold Str.lstrip. cbn [Str.lstrip_from]. rewrite H. reflexivity.
Qed.

Lemma rstrip_unfold (c : ascii) (s : string) :
  Str.rstrip (String c s) =
  if Str.is_space (String c (Str.rstrip s)) then EmptyString
  else String c (Str.rstrip s).
Proof. reflexivity. Qed.

Lemma rstrip_idem (s : string) : Str.rstrip (Str.rstrip s) = Str.rstrip s.
Proof.
  induction s as [|c s IH]; [reflexivity|].
  rewrite rstrip_unfold.
  destruct (Str.is_space (String c (Str.rstrip s))) eqn:E; [reflexivity|].
  rewrite rstrip_unfold, IH, E. reflexivity.
Qed.

(** [rstrip] returns a prefix of the text. *)
Lemma rstrip_prefix (s : string) : ∃ w, s = Str.rstrip s +:+ w.
Proof.
  induction s as [|c s [w IH]]; [exists ""; reflexivity|].
  rewrite rstrip_unfold. destruct (Str.is_space _).
  - exists (String c s). reflexivity.
  - exists w. rewrite append_cons, <- IH. reflexivity.
Qed.

(** The last byte of what [rstrip] returns is no ASCII whitespace. *)
Lemma rstrip_last (x pre : string) (c : ascii) :
  Str.rstrip x = pre +:+ String c EmptyString → Str.isspace c = false.
Proof.
  revert pre. induction x as [|a x IH]; intros pre.
  - intros H. symmetry in H. destruct (append_nonempty _ _ H).
  - rewrite rstrip_unfold.
    destruct (Str.is_space (String a (Str.rstrip x))) eqn:E.
    { intros H. symmetry in H. destruct (append_nonempty _ _ H). }
    destruct pre as [|p pre].
    + intros [= -> Hx]. rewrite Hx in E. unfold Str.is_space in E.
      cbn [Str.space_width String.length] in E.
      destruct (Str.isspace c); [discriminate|reflexivity].
    + rewrite append_cons. intros [= _ Hx]. exact (IH _ Hx).
Qed.

Lemma rstrip_head (s : string) :
  Str.space_width s = 0 → Str.space_width (Str.rstrip s) = 0.
Proof.
  intros H. destruct (rstrip_prefix s) as [w Hw].
  destruct (Str.space_width (Str.rstrip s)) as [|k] eqn:E; [reflexivity|].
  rewrite Hw, space_width_app in H by (rewrite E; discriminate).
  congruence.
Qed.

Lemma strip_idem (s : string) : Str.strip (Str.strip s) = Str.strip s.
Proof.
  unfold Str.strip.
  rewrite (lstrip_id (Str.rstrip (Str.lstrip s))).
  - apply rstrip_idem.
  - apply rstrip_head, lstrip_from_head.
Qed.

(** *** Texts of whitespace *)

Lemma whitespace_width (w s : string) :
  In w WHITESPACE →
  Str.space_width (w +:+ s) = String.length w ∧ w ≠ "".
Proof.
  unfold WHITESPACE. intros H.
  repeat (destruct H as [<-|H]; [split; [reflexivity|discriminate]|]).
  destruct H.
Qed.

Lemma split_from_skip (w s : string) (k : nat) :
  String.length w = k → Str.split_from k (w +:+ s) = Str.split s.
Proof.
  revert k. induction w as [|c w IH]; intros k <-; [reflexivity|].
  change (String c w +:+ s) with (String c (w +:+ s)).
  cbn [String.length Str.split_from]. apply IH. reflexivity.
Qed.

(** [split] finds no term in a text of whitespace. *)
Lemma split_whitespace (s : string) : whitespace_only s → Str.split s = [].
Proof.
  induction 1 as [|w s Hw _ IH]; [reflexivity|].
  destruct (whitespace_width w s Hw) as [E Hne].
  destruct w as [|c w]; [done|]. rewrite append_cons in *.
  unfold Str.split. cbn [Str.split_from]. rewrite E. cbn [String.length].
  rewrite <- IH. apply split_from_skip. reflexivity.
Qed.

Lemma lower_ascii_space (w s : string) :
  In w WHITESPACE → Str.lower_ascii (w +:+ s) = w +:+ Str.lower_ascii s.
Proof.
  unfold WHITESPACE. intros H.
  repeat (destruct H as [<-|H]; [reflexivity|]).
  destruct H.
Qed.

Lemma lower_ascii_whitespace (s : string) :
  whitespace_only s → Str.lower_ascii s = s.
Proof.
  induction 1 as [|w s Hw _ IH]; [reflexivity|].
  rewrite (lower_ascii_space w s Hw), IH. reflexivity.
Qed.

Lemma ascii_or_space_from_skip (w s : string) (k : nat) :
  String.length w = k → ascii_or_space_from k (w +:+ s) = ascii_or_space s.
Proof.
  revert k. induction w as [|c w IH]; intros k <-; [reflexivity|].
  change (String c w +:+ s) with (String c (w +:+ s)).
  cbn [String.length ascii_or_space_from]. apply IH. reflexivity.
Qed.

Lemma whitespace_ascii_or_space (s : string) :
  whitespace_only s → ascii_or_space s = true.
Proof.
  induction 1 as [|w s Hw _ IH]; [reflexivity|].
  destruct (whitespace_width w s Hw) as [E Hne].
  destruct w as [|c w]; [done|]. rewrite append_cons in *.
  unfold ascii_or_space. cbn [ascii_or_space_from]. rewrite E.
  cbn [String.length]. rewrite <- IH. apply ascii_or_space_from_skip.
  reflexivity.
Qed.

(** Whitespace has no case. *)
Lemma lower_whitespace {lib : Lib} (s : string) :
  whitespace_only s → lower s = s.
Proof.
  intros H. unfold lower. rewrite (whitespace_ascii_or_space s H).
  apply lower_ascii_whitespace, H.
Qed.

Lemma ascii_space_width (c : ascii) (s : string) :
  (nat_of_ascii c <? 128)%nat = true →
  Str.space_width (String c s) = if Str.isspace c then 1 else 0.
Proof.
  intros Hc%Nat.ltb_lt. unfold Str.space_width.
  destruct (Str.isspace c); [reflexivity|].
  destruct s as [|d s]; [reflexivity|].
  unfold Str.isspace2, Str.isspace3.
  destruct (Nat.eqb_spec (nat_of_ascii c) 194); [lia|].
  destruct (Nat.eqb_spec (nat_of_ascii c) 225); [lia|].
  destruct (Nat.eqb_spec (nat_of_ascii c) 226); [lia|].
  destruct (Nat.eqb_spec (nat_of_ascii c) 227); [lia|].
  destruct s; reflexivity.
Qed.

Lemma is_ascii_or_space (s : string) :
  is_ascii s = true → ascii_or_space s = true.
Proof.
  unfold ascii_or_space, is_ascii.
  induction s as [|c s IH]; [reflexivity|].
  cbn [list_ascii_of_string forallb]. intros [Hc Hs]%andb_true_iff.
  cbn [ascii_or_space_from]. rewrite (ascii_space_width c s Hc).
  destruct (Str.isspace c); [apply IH, Hs|]. rewrite Hc. apply IH, Hs.
Qed.

(** On ASCII text, [lower] lowers the letters A to Z. *)
Lemma lower_ascii_text {lib : Lib} (s : string) :
  is_ascii s = true → lower s = Str.lower_ascii s.
Proof.
  intros H. unfold lower. rewrite (is_ascii_or_space s H). reflexivity.
Qed.

Lemma prefix_app (t s : string) :
  String.prefix t s = true ↔ ∃ post, s = t +:+ post.
Proof.
  revert s. induction t as [|c t IH]; intros s.
  - destruct s; simpl; split; eauto.
  - destruct s as [|d s]; simpl.
    + split; [discriminate|intros [post [=]]].
    + destruct (ascii_dec c d) as [->|Hne].
      * rewrite IH. split; intros [post E]; exists post.
        -- rewrite append_cons, E. reflexivity.
        -- rewrite append_cons in E. injection E as <-. reflexivity.
      * split; [discriminate|]. intros [post E].
        rewrite append_cons in E. congruence.
Qed.

Lemma py_in_substring (t s : string) : py_in t s = true ↔ is_substring t s.
Proof.
  unfold is_substring. induction s as [|d s IH]; cbn [py_in].
  - rewrite orb_false_r, prefix_app. split.
    + intros [post ->]. exists "", post. reflexivity.
    + intros (pre & post & H). destruct pre; [eauto|discriminate].
  - rewrite orb_true_iff, prefix_app, IH. split.
    + intros [[post ->]|(pre & post & ->)].
      * exists "", post. reflexivity.
      * exists (String d pre), post. reflexivity.
    + intros (pre & post & H). destruct pre as [|e pre].
      * left. exists post. exact H.
      * right. rewrite append_cons in H. injection H as -> ->. eauto.
Qed.


Lemma strip_not_newline_terminated (x pre : string) :
  Str.strip x ≠ pre +:+ String Re.newline EmptyString.
Proof.
  intros H. apply rstrip_last in H. discriminate.
Qed.

(** Removing a final ["DT"] and putting it back. *)
Lemma sub_DT_end_strip (d : string) :
  Re.sub_DT_end (Str.strip d)
    +:+ (if Str.endswith "DT" (Str.strip d) then "DT" else "")
  = Str.strip d.
Proof.
  unfold Re.sub_DT_end.
  destruct (Str.endswith "DT" (Str.strip d)) eqn:E.
  - apply endswith_inv in E as [pre E]. rewrite E.
    change 2 with (String.length "DT"). rewrite drop_last_app. reflexivity.
  - destruct (Str.endswith (String "D" (String "T" (String Re.newline "")))
                (Str.strip d)) eqn:E'.
    + apply endswith_inv in E' as [pre E']. exfalso.
      apply (strip_not_newline_terminated d (pre +:+ "DT")).
      rewrite E', append_assoc. reflexivity.
    + generalize (Str.strip d). clear. intros s.
      induction s as [|a s IH]; [reflexivity|].
      rewrite append_cons, IH. reflexivity.
Qed.

(** ** [load_data] *)

Lemma read_cell_Some (s t : string) :
  read_cell s = Some t → t = s ∧ s ∉ NA_VALUES.
Proof. unfold read_cell. case_decide; naive_solver. Qed.

Lemma read_cell_nonempty (s t : string) : read_cell s = Some t → t ≠ "".
Proof.
  intros [-> H]%read_cell_Some ->. apply H. unfold NA_VALUES. set_solver.
Qed.

Section LoadFacts.
Variable to_numeric : string → option Q.

Lemma load_data_In (csv : list CsvRow) (r : Row) :
  In r (load_data to_numeric csv) ↔
  ∃ c, In c csv ∧ has_name_and_weight (read_row c) = true
       ∧ valid_class (read_row c) = true
       ∧ r = normalize to_numeric (read_row c).
Proof.
  unfold load_data, read_csv. rewrite in_map_iff. split.
  - intros (raw & <- & [[(c & <- & Hc)%in_map_iff Hn]%filter_In Hv]%filter_In).
    eauto 10.
  - intros (c & Hc & Hn & Hv & ->). exists (read_row c). split; [done|].
    apply filter_In. split; [|done]. apply filter_In. split; [|done].
    apply in_map. done.
Qed.

End LoadFacts.

(** ** The stable sort *)

Section SortFacts.
Context {A : Type} (le : A → A → bool).
Hypothesis le_total : ∀ a b, le a b = true ∨ le b a = true.
Hypothesis le_trans : ∀ a b c, le a b = true → le b c = true → le a c = true.

Let R (a b : A) : Prop := le a b = true.

Lemma le_refl (a : A) : le a a = true.
Proof. destruct (le_total a a); assumption. Qed.

Lemma insert_by_perm (x : A) (l : list A) :
  Permutation (insert_by le x l) (x :: l).
Proof.
  induction l as [|y l IH]; simpl; [reflexivity|].
  destruct (le x y); [reflexivity|].
  rewrite IH. apply perm_swap.
Qed.

Lemma sort_by_perm (l : list A) : Permutation (sort_by le l) l.
Proof.
  induction l as [|x l IH]; simpl; [reflexivity|].
  rewrite insert_by_perm, IH. reflexivity.
Qed.

Lemma sort_by_In (l : list A) (x : A) : In x (sort_by le l) ↔ In x l.
Proof.
  split; apply Permutation_in;
    [apply sort_by_perm | symmetry; apply sort_by_perm].
Qed.

Lemma insert_by_sorted (x : A) (l : list A) :
  StronglySorted R l → StronglySorted R (insert_by le x l).
Proof.
  induction 1 as [|y l Hs IH Hy]; simpl.
  - repeat constructor.
  - destruct (le x y) eqn:E.
    + constructor; [constructor; assumption|].
      constructor; [exact E|].
      eapply List.Forall_impl; [|exact Hy]. intros z Hz. exact (le_trans _ _ _ E Hz).
    + constructor; [exact IH|].
      apply (Permutation_Forall (x := x :: l)).
      { symmetry. apply insert_by_perm. }
      constructor; [|exact Hy].
      destruct (le_total x y) as [H|H]; [congruence|exact H].
Qed.

Lemma sort_by_sorted (l : list A) : StronglySorted R (sort_by le l).
Proof.
  induction l as [|x l IH]; simpl; [constructor|].
  apply insert_by_sorted, IH.
Qed.

(** Inserting below a sorted list puts the element in front. *)
Lemma insert_by_front (x : A) (l : list A) :
  Forall (R x) l → insert_by le x l = x :: l.
Proof.
  destruct 1 as [|y l Hy _]; simpl; [reflexivity|].
  unfold R in Hy. rewrite Hy. reflexivity.
Qed.

(** A sorted list is left as it is. *)
Lemma sort_by_id (l : list A) : StronglySorted R l → sort_by le l = l.
Proof.
  induction 1 as [|x l Hs IH Hx]; simpl; [reflexivity|].
  rewrite IH. apply insert_by_front, Hx.
Qed.

Lemma sort_by_short (l : list A) :
  (List.length l ≤ 1)%nat → sort_by le l = l.
Proof. destruct l as [|x [|y l]]; simpl; [reflexivity..|lia]. Qed.

Lemma StronglySorted_filter (f : A → bool) (l : list A) :
  StronglySorted R l → StronglySorted R (List.filter f l).
Proof.
  induction 1 as [|x l Hs IH Hx]; simpl; [constructor|].
  destruct (f x); [|exact IH].
  constructor; [exact IH|].
  apply List.Forall_forall. intros y [Hy _]%filter_In.
  exact (proj1 (List.Forall_forall _ _) Hx y Hy).
Qed.

(** Selecting rows commutes with sorting. *)
Lemma filter_insert_by (f : A → bool) (x : A) (l : list A) :
  StronglySorted R l →
  List.filter f (insert_by le x l) =
  if f x then insert_by le x (List.filter f l) else List.filter f l.
Proof.
  induction 1 as [|y l Hs IH Hy]; simpl.
  - destruct (f x); reflexivity.
  - destruct (le x y) eqn:E; simpl.
    + destruct (f x) eqn:Fx; [|reflexivity].
      symmetry. apply insert_by_front.
      assert (Forall (R x) (y :: l)) as Hall.
      { constructor; [exact E|].
        eapply List.Forall_impl; [|exact Hy]. intros z Hz.
        exact (le_trans _ _ _ E Hz). }
      apply List.Forall_forall. intros z [Hz _]%(filter_In f z (y :: l)).
      exact (proj1 (List.Forall_forall _ _) Hall z Hz).
    + rewrite IH. destruct (f y), (f x); simpl; rewrite ?E; reflexivity.
Qed.

Lemma filter_sort_by (f : A → bool) (l : list A) :
  List.filter f (sort_by le l) = sort_by le (List.filter f l).
Proof.
  induction l as [|x l IH]; simpl; [reflexivity|].
  rewrite filter_insert_by by apply sort_by_sorted.
  rewrite IH. destruct (f x); reflexivity.
Qed.

Lemma tied_sorted (x : A) (l : list A) :
  Forall (λ y, tied le x y = true) l → StronglySorted R l.
Proof.
  induction 1 as [|y l Hy Hl IH]; constructor; [exact IH|].
  eapply List.Forall_impl; [|exact Hl]. intros z Hz. unfold tied in *.
  apply andb_true_iff in Hy as [_ Hy], Hz as [Hz _].
  exact (le_trans _ _ _ Hy Hz).
Qed.

(** Stability: rows the order ties leave the sort in the order in which
    they entered it. *)
Lemma sort_by_stable (x : A) (l : list A) :
  List.filter (tied le x) (sort_by le l) = List.filter (tied le x) l.
Proof.
  rewrite filter_sort_by. apply sort_by_id, (tied_sorted x).
  apply List.Forall_forall. intros y [_ Hy]%filter_In. exact Hy.
Qed.

(** Two sorted lists with the same rows in every tie class are equal. *)
Lemma sorted_tied_eq (l1 l2 : list A) :
  StronglySorted R l1 → StronglySorted R l2 →
  (∀ x, List.filter (tied le x) l1 = List.filter (tied le x) l2) →
  l1 = l2.
Proof.
  intros H1. revert l2.
  induction H1 as [|a l1 Hs1 IH Ha]; intros l2 H2 Hf.
  - destruct l2 as [|b l2]; [reflexivity|].
    specialize (Hf b). simpl in Hf. unfold tied in Hf at 1.
    rewrite le_refl in Hf. discriminate.
  - destruct H2 as [|b l2 Hs2 Hb].
    + specialize (Hf a). simpl in Hf. unfold tied in Hf at 1.
      rewrite le_refl in Hf. discriminate.
    + assert (tied le a b = true) as Hab.
      { unfold tied. apply andb_true_iff. split.
        - assert (In b (a :: l1)) as [->|Hin].
          { apply (filter_In (tied le b) b (a :: l1)). rewrite Hf.
            simpl. unfold tied at 1. rewrite le_refl. left. reflexivity. }
          + apply le_refl.
          + exact (proj1 (List.Forall_forall _ _) Ha b Hin).
        - assert (In a (b :: l2)) as [->|Hin].
          { apply (filter_In (tied le a) a (b :: l2)). rewrite <- Hf.
            simpl. unfold tied at 1. rewrite le_refl. left. reflexivity. }
          + apply le_refl.
          + exact (proj1 (List.Forall_forall _ _) Hb a Hin). }
      assert (a = b) as <-.
      { specialize (Hf a). simpl in Hf. rewrite Hab in Hf.
        unfold tied in Hf at 1. rewrite le_refl in Hf. simpl in Hf.
        congruence. }
      f_equal. apply IH; [exact Hs2|].
      intros x. specialize (Hf x). simpl in Hf.
      destruct (tied le x a); congruence.
Qed.

(** The head of the sorted list: the first row of the input that no
    other row beats. *)
Lemma sort_by_head (l : list A) (r : A) (rest : list A) :
  sort_by le l = r :: rest →
  ∃ pre post, l = pre ++ r :: post
    ∧ (∀ y, In y pre → le y r = false)
    ∧ (∀ y, In y post → le r y = true).
Proof.
  revert r rest. induction l as [|a l IH]; intros r rest; simpl; [discriminate|].
  destruct (sort_by le l) as [|h t] eqn:E; simpl.
  - intros [= <- <-]. exists [], l. split; [reflexivity|].
    assert (l = []) as ->.
    { apply Permutation_nil. rewrite <- E. apply sort_by_perm. }
    split; intros y [].
  - destruct (le a h) eqn:Hah.
    + intros [= <- <-]. exists [], l. split; [reflexivity|].
      split; [intros y []|]. intros y Hy.
      apply sort_by_In in Hy. rewrite E in Hy.
      pose proof (sort_by_sorted l) as Hs. rewrite E in Hs.
      apply StronglySorted_inv in Hs as [_ Hh].
      destruct Hy as [<-|Hy]; [exact Hah|].
      exact (le_trans _ _ _ Hah (proj1 (List.Forall_forall _ _) Hh y Hy)).
    + intros [= <- <-].
      destruct (IH h t eq_refl) as (pre & post & -> & Hpre & Hpost).
      exists (a :: pre), post. split; [reflexivity|].
      split; [|exact Hpost].
      intros y [<-|Hy]; [exact Hah|apply Hpre, Hy].
Qed.

End SortFacts.

(** A selection of rows that splits around one of its rows splits the
    frame it was taken from in the same way. *)
Lemma filter_split {A : Type} (f : A → bool) (l pre post : list A) (x : A) :
  List.filter f l = pre ++ x :: post →
  ∃ pre' post', l = pre' ++ x :: post'
    ∧ List.filter f pre' = pre ∧ List.filter f post' = post.
Proof.
  revert pre. induction l as [|a l IH]; intros pre; simpl.
  - destruct pre; discriminate.
  - destruct (f a) eqn:Fa.
    + destruct pre as [|p pre]; simpl; intros [= -> H].
      * exists [], l. simpl. auto.
      * destruct (IH _ H) as (pre' & post' & -> & Hp & Hq).
        exists (p :: pre'), post'. simpl. rewrite Fa, Hp. auto.
    + intros H. destruct (IH _ H) as (pre' & post' & -> & Hp & Hq).
      exists (a :: pre'), post'. simpl. rewrite Fa. auto.
Qed.

(** ** The orders used by the reducer *)

Lemma lex_total {A : Type} (le1 le2 : A → A → bool) :
  (∀ a b, le1 a b = true ∨ le1 b a = true) →
  (∀ a b, le2 a b = true ∨ le2 b a = true) →
  ∀ a b, lex le1 le2 a b = true ∨ lex le1 le2 b a = true.
Proof.
  intros T1 T2 a b. unfold lex.
  destruct (T1 a b) as [H|H], (T2 a b) as [H'|H']; rewrite ?H, ?H';
    destruct (le1 a b), (le1 b a), (le2 a b), (le2 b a); simpl; auto; discriminate.
Qed.

Lemma lex_trans {A : Type} (le1 le2 : A → A → bool) :
  (∀ a b c, le1 a b = true → le1 b c = true → le1 a c = true) →
  (∀ a b c, le2 a b = true → le2 b c = true → le2 a c = true) →
  ∀ a b c, lex le1 le2 a b = true → lex le1 le2 b c = true →
           lex le1 le2 a c = true.
Proof.
  intros T1 T2 a b c. unfold lex.
  intros [Hab Hab']%andb_true_iff [Hbc Hbc']%andb_true_iff.
  apply andb_true_iff. split; [exact (T1 _ _ _ Hab Hbc)|].
  destruct (le1 c a) eqn:Hca; simpl; [|reflexivity].
  rewrite (T1 _ _ _ Hbc Hca) in Hab'. rewrite (T1 _ _ _ Hca Hab) in Hbc'.
  simpl in *. exact (T2 _ _ _ Hab' Hbc').
Qed.

Lemma lex_fst {A : Type} (le1 le2 : A → A → bool) (a b : A) :
  lex le1 le2 a b = true → le1 a b = true.
Proof. unfold lex. intros [H _]%andb_true_iff. exact H. Qed.

Lemma by_place_total {A : Type} (place : A → nat) (a b : A) :
  by_place place a b = true ∨ by_place place b a = true.
Proof. unfold by_place. rewrite !Nat.leb_le. lia. Qed.

Lemma by_place_trans {A : Type} (place : A → nat) (a b c : A) :
  by_place place a b = true → by_place place b c = true →
  by_place place a c = true.
Proof. unfold by_place. rewrite !Nat.leb_le. lia. Qed.

Lemma num_le_total (a b : option Q) : num_le a b = true ∨ num_le b a = true.
Proof.
  destruct a as [x|], b as [y|]; simpl; auto.
  rewrite !Qle_bool_iff. destruct (Qlt_le_dec x y) as [H|H]; auto.
  left. apply Qlt_le_weak, H.
Qed.

Lemma num_le_trans (a b c : option Q) :
  num_le a b = true → num_le b c = true → num_le a c = true.
Proof.
  destruct a as [x|], b as [y|], c as [z|]; simpl; try done.
  rewrite !Qle_bool_iff. apply Qle_trans.
Qed.

Lemma weight_le_total (a b : weight_val) :
  weight_le a b = true ∨ weight_le b a = true.
Proof.
  destruct a as [x|], b as [y|]; simpl; auto.
  rewrite !Qle_bool_iff. destruct (Qlt_le_dec x y) as [H|H]; auto.
  left. apply Qlt_le_weak, H.
Qed.

Lemma weight_le_trans (a b c : weight_val) :
  weight_le a b = true → weight_le b c = true → weight_le a c = true.
Proof.
  destruct a as [x|], b as [y|], c as [z|]; simpl; try done.
  rewrite !Qle_bool_iff. apply Qle_trans.
Qed.

Lemma string_leb_trans (a b c : string) :
  String.leb a b = true → String.leb b c = true → String.leb a c = true.
Proof.
  intros H1%Is_true_true H2%Is_true_true. apply Is_true_true.
  exact (transitivity (R := String.le) H1 H2).
Qed.

(** ** [best_per_class_and_lift] *)

Lemma in_group_pair (c l : string) (r : Row) :
  in_group c l r = true ↔ pair_of r = (c, l).
Proof.
  unfold in_group, pair_of. rewrite andb_true_iff, !String.eqb_eq.
  split; [intros [-> ->]; reflexivity | intros [= -> ->]; auto].
Qed.

Lemma weights_comparable_incl (l l' : list Row) :
  incl l' l → weights_comparable l = true → weights_comparable l' = true.
Proof.
  unfold weights_comparable. intros Hi.
  rewrite !orb_true_iff, !forallb_forall. intros [H|H]; [left|right];
    intros x Hx; apply H, Hi, Hx.
Qed.

Lemma StronglySorted_weaken {A : Type} (R R' : A → A → Prop) (l : list A) :
  (∀ a b, In a l → In b l → R a b → R' a b) →
  StronglySorted R l → StronglySorted R' l.
Proof.
  intros H Hs. induction Hs as [|a l Hs IH Ha]; constructor.
  - apply IH. intros x y Hx Hy. apply H; right; assumption.
  - apply List.Forall_forall. intros b Hb. apply H; [left; reflexivity|right; exact Hb|].
    exact (proj1 (List.Forall_forall _ _) Ha b Hb).
Qed.

Lemma forallb_false {A : Type} (f : A → bool) (l : list A) :
  forallb f l = false ↔ ∃ x, In x l ∧ f x = false.
Proof.
  induction l as [|a l IH]; simpl.
  - split; [discriminate|intros (_ & [] & _)].
  - rewrite andb_false_iff, IH. split.
    + intros [H|(x & Hx & Hf)]; eauto.
    + intros (x & [<-|Hx] & Hf); eauto.
Qed.

Lemma weights_comparable_false (df : list Row) :
  weights_comparable df = false ↔ has_numeric df ∧ has_blank df.
Proof.
  unfold weights_comparable, has_numeric, has_blank.
  rewrite orb_false_iff, !forallb_false. split.
  - intros [(b & Hb & Eb) (n & Hn & En)]. split.
    + exists n. split; [exact Hn|]. apply negb_false_iff, En.
    + exists b. split; [exact Hb|]. destruct (Weight b); [discriminate|reflexivity].
  - intros [(n & Hn & En) (b & Hb & Eb)]. split.
    + exists b. split; [exact Hb|]. rewrite Eb. reflexivity.
    + exists n. split; [exact Hn|]. rewrite En. reflexivity.
Qed.

(** On a frame that the sort accepts, the comparison of two weights is
    the order of two numbers, or ties two blanks. *)
Lemma comparable_at_most (df : list Row) (a b : Row) :
  weights_comparable df = true → In a df → In b df →
  weight_le (Weight a) (Weight b) = true → at_most a b.
Proof.
  unfold weights_comparable, at_most.
  intros [H|H]%orb_true_iff Ha Hb;
    pose proof (proj1 (forallb_forall _ _) H a Ha) as Ea;
    pose proof (proj1 (forallb_forall _ _) H b Hb) as Eb;
    simpl in Ea, Eb; destruct (Weight a), (Weight b); try discriminate;
    simpl; intros Hle; [apply Qle_bool_iff, Hle|exact I].
Qed.

Lemma comparable_same_weight (df : list Row) (a b : Row) :
  weights_comparable df = true → In a df → In b df →
  weight_le (Weight a) (Weight b) = true →
  weight_le (Weight b) (Weight a) = true → same_weight a b.
Proof.
  intros Hc Ha Hb H1 H2.
  pose proof (comparable_at_most df a b Hc Ha Hb H1) as L1.
  pose proof (comparable_at_most df b a Hc Hb Ha H2) as L2.
  unfold at_most, same_weight in *.
  destruct (Weight a), (Weight b); try done. apply Qle_antisym; assumption.
Qed.

Section ReducerFacts.
Context {lib : Lib}.
Variable to_numeric : string → option Q.

Lemma weight_ge_total (a b : Row) :
  weight_ge a b = true ∨ weight_ge b a = true.
Proof. unfold weight_ge. apply weight_le_total. Qed.

Lemma weight_ge_trans (a b c : Row) :
  weight_ge a b = true → weight_ge b c = true → weight_ge a c = true.
Proof. unfold weight_ge. intros H1 H2. exact (weight_le_trans _ _ _ H2 H1). Qed.

(** The order of the sort of line 109 on a frame. *)
Lemma weight_order_total (df : list Row) (a b : Row) :
  lex weight_ge (by_place (weight_ties df)) a b = true
  ∨ lex weight_ge (by_place (weight_ties df)) b a = true.
Proof. apply lex_total; [apply weight_ge_total|apply by_place_total]. Qed.

Lemma weight_order_trans (df : list Row) (a b c : Row) :
  lex weight_ge (by_place (weight_ties df)) a b = true →
  lex weight_ge (by_place (weight_ties df)) b c = true →
  lex weight_ge (by_place (weight_ties df)) a c = true.
Proof. apply lex_trans; [apply weight_ge_trans|apply by_place_trans]. Qed.

Lemma key_le_total (a b : Row) :
  key_le to_numeric a b = true ∨ key_le to_numeric b a = true.
Proof.
  unfold key_le. apply lex_total; [|apply lex_total].
  - intros x y. apply num_le_total.
  - intros x y. apply String.leb_total.
  - intros x y. rewrite !Nat.leb_le. lia.
Qed.

Lemma key_le_trans (a b c : Row) :
  key_le to_numeric a b = true → key_le to_numeric b c = true →
  key_le to_numeric a c = true.
Proof.
  unfold key_le. apply lex_trans; [|apply lex_trans].
  - intros x y z. apply num_le_trans.
  - intros x y z. apply string_leb_trans.
  - intros x y z. rewrite !Nat.leb_le. lia.
Qed.

(** *** [drop_duplicates] *)

Lemma drop_duplicates_from_incl (seen : gset (string * string)) (l : list Row) :
  incl (drop_duplicates_from seen l) l.
Proof.
  revert seen. induction l as [|r l IH]; intros seen; simpl; [intros ? []|].
  case_bool_decide.
  - apply incl_tl, IH.
  - apply incl_cons; [left; reflexivity|]. apply incl_tl, IH.
Qed.

Lemma drop_duplicates_from_sorted (R : Row → Row → Prop)
    (seen : gset (string * string)) (l : list Row) :
  StronglySorted R l → StronglySorted R (drop_duplicates_from seen l).
Proof.
  intros H. revert seen. induction H as [|r l Hs IH Hr]; intros seen; simpl.
  - constructor.
  - case_bool_decide; [apply IH|].
    constructor; [apply IH|].
    apply List.Forall_forall. intros y Hy%drop_duplicates_from_incl.
    exact (proj1 (List.Forall_forall _ _) Hr y Hy).
Qed.

Lemma drop_duplicates_from_fresh (seen : gset (string * string))
    (l : list Row) (r : Row) :
  In r (drop_duplicates_from seen l) → pair_of r ∉ seen.
Proof.
  revert seen. induction l as [|a l IH]; intros seen; simpl; [done|].
  case_bool_decide as Ha.
  - apply IH.
  - intros [<-|Hr]; [exact Ha|].
    apply IH in Hr. intros Hs. apply Hr, elem_of_union. right. exact Hs.
Qed.

Lemma drop_duplicates_from_NoDup (seen : gset (string * string)) (l : list Row) :
  NoDup (pair_of <$> drop_duplicates_from seen l).
Proof.
  revert seen. induction l as [|a l IH]; intros seen; simpl.
  - constructor.
  - case_bool_decide as Ha; [apply IH|].
    rewrite fmap_cons. apply NoDup_cons. split; [|apply IH].
    intros (r & Hk & Hr)%list_elem_of_fmap.
    apply list_elem_of_In, drop_duplicates_from_fresh in Hr.
    apply Hr, elem_of_union. left. apply elem_of_singleton. symmetry. exact Hk.
Qed.

(** A frame without a repeated pair is left as it is. *)
Lemma drop_duplicates_from_id (seen : gset (string * string)) (l : list Row) :
  NoDup (pair_of <$> l) → (∀ r, In r l → pair_of r ∉ seen) →
  drop_duplicates_from seen l = l.
Proof.
  revert seen. induction l as [|a l IH]; intros seen; simpl; [done|].
  intros [Ha Hl]%NoDup_cons Hs.
  rewrite bool_decide_eq_false_2 by (apply Hs; left; reflexivity).
  f_equal. apply IH; [exact Hl|].
  intros r Hr. specialize (Hs r (or_intror Hr)).
  assert (pair_of r ≠ pair_of a) as Hne.
  { intros E. apply Ha. rewrite <- E. apply list_elem_of_fmap.
    exists r. split; [reflexivity|]. apply list_elem_of_In, Hr. }
  intros [Hin%elem_of_singleton|Hin]%elem_of_union; [exact (Hne Hin)|exact (Hs Hin)].
Qed.

(** Of the rows of one pair, exactly the first survives. *)
Lemma drop_duplicates_from_group (c l : string)
    (seen : gset (string * string)) (df : list Row) :
  List.filter (in_group c l) (drop_duplicates_from seen df) =
  if bool_decide ((c, l) ∈ seen) then []
  else firstn 1 (List.filter (in_group c l) df).
Proof.
  revert seen. induction df as [|r df IH]; intros seen; simpl.
  - case_bool_decide; reflexivity.
  - destruct (in_group c l r) eqn:G.
    + apply in_group_pair in G. unfold pair_of in G. rewrite G.
      destruct (decide ((c, l) ∈ seen)) as [Hs|Hs].
      * rewrite !(bool_decide_eq_true_2 _ Hs), IH.
        rewrite (bool_decide_eq_true_2 _ Hs). reflexivity.
      * rewrite !(bool_decide_eq_false_2 _ Hs). simpl.
        assert (in_group c l r = true) as -> by (apply in_group_pair; exact G).
        rewrite IH, bool_decide_eq_true_2; [reflexivity|].
        apply elem_of_union. left. apply elem_of_singleton. reflexivity.
    + assert (pair_of r ≠ (c, l)) as Hne.
      { intros E%in_group_pair. congruence. }
      unfold pair_of in Hne.
      destruct (decide ((Class r, Lift r) ∈ seen)) as [Hs|Hs].
      * rewrite (bool_decide_eq_true_2 _ Hs). apply IH.
      * rewrite (bool_decide_eq_false_2 _ Hs). simpl. rewrite G, IH.
        rewrite (bool_decide_ext ((c, l) ∈ {[(Class r, Lift r)]} ∪ seen)
                   ((c, l) ∈ seen)); [reflexivity|].
        rewrite elem_of_union, elem_of_singleton.
        split; [intros [E|E]; [congruence|exact E] | auto].
Qed.

End ReducerFacts.

(** Rows of a sorted frame are related whenever one comes before the other. *)
Lemma StronglySorted_before {A : Type} (R : A → A → Prop)
    (pre mid post : list A) (a b : A) :
  StronglySorted R (pre ++ a :: mid ++ b :: post) → R a b.
Proof.
  induction pre as [|p pre IH]; simpl; intros [Hs Ha]%StronglySorted_inv.
  - apply (proj1 (List.Forall_forall _ _) Ha). apply in_or_app. right. left. reflexivity.
  - apply IH, Hs.
Qed.

Lemma lift_order_rank (a b : Row) :
  (lift_order a ≤ lift_order b)%nat ↔
  (canonical_rank (Lift a) ≤ canonical_rank (Lift b))%nat.
Proof.
  unfold lift_order, canonical_rank, LIFT_ORDER. simpl.
  destruct (String.eqb (Lift a) "Squat"), (String.eqb (Lift a) "Bench"),
    (String.eqb (Lift a) "Deadlift"), (String.eqb (Lift a) "Total"),
    (String.eqb (Lift b) "Squat"), (String.eqb (Lift b) "Bench"),
    (String.eqb (Lift b) "Deadlift"), (String.eqb (Lift b) "Total");
    simpl; lia.
Qed.

(** Rows that the key order ties have one class, and lifts of one rank. *)
Lemma string_leb_antisym (a b : string) :
  String.leb a b = true → String.leb b a = true → a = b.
Proof. apply String.leb_antisym. Qed.

Section ReducerClaims.
Context {lib : Lib}.
Variable to_numeric : string → option Q.

Local Abbreviation worder df := (lex weight_ge (by_place (weight_ties df))).

Lemma best_per_class_and_lift_Ok (df : list Row) :
  weights_comparable df = true →
  best_per_class_and_lift to_numeric df =
  Ok (sort_by (key_le to_numeric) (drop_duplicates (sort_by (worder df) df))).
Proof.
  intros H. unfold best_per_class_and_lift, sort_weight_desc. rewrite H.
  reflexivity.
Qed.

Lemma best_per_class_and_lift_inv (df out : list Row) :
  best_per_class_and_lift to_numeric df = Ok out →
  weights_comparable df = true
  ∧ out = sort_by (key_le to_numeric)
            (drop_duplicates (sort_by (worder df) df)).
Proof.
  unfold best_per_class_and_lift, sort_weight_desc.
  destruct (weights_comparable df); [|discriminate].
  intros [= <-]. split; reflexivity.
Qed.

Lemma best_per_class_and_lift_Raise (df : list Row) :
  weights_comparable df = false →
  best_per_class_and_lift to_numeric df = Raise TypeError.
Proof.
  intros H. unfold best_per_class_and_lift, sort_weight_desc. rewrite H.
  reflexivity.
Qed.

Lemma best_per_class_and_lift_incl (df out : list Row) :
  best_per_class_and_lift to_numeric df = Ok out → incl out df.
Proof.
  intros [_ ->]%best_per_class_and_lift_inv r Hr.
  apply (proj1 (sort_by_In _ _ _)), drop_duplicates_from_incl in Hr.
  apply (proj1 (sort_by_In _ _ _)) in Hr. exact Hr.
Qed.

(** The rows of one pair in the output: the head of the pair's rows once
    these are sorted by weight. *)
Lemma best_group (df : list Row) (c l : string) :
  List.filter (in_group c l)
    (sort_by (key_le to_numeric) (drop_duplicates (sort_by (worder df) df))) =
  firstn 1 (sort_by (worder df) (List.filter (in_group c l) df)).
Proof.
  rewrite (filter_sort_by _ (key_le_total to_numeric) (key_le_trans to_numeric)).
  unfold drop_duplicates. rewrite drop_duplicates_from_group.
  rewrite bool_decide_eq_false_2 by apply not_elem_of_empty.
  rewrite (filter_sort_by _ (weight_order_total df) (weight_order_trans df)).
  apply sort_by_short. rewrite length_take. lia.
Qed.

(** C2, amended.  On a frame that mixes numeric and blank weights the
    reducer raises [TypeError].  On every other frame it returns, for
    each (Class, Lift) pair that has a row in the frame, exactly one row,
    and no row for a pair that has none; the row returned for a pair is a
    row of the pair that no row of the pair outweighs.  Which of several
    rows at the greatest weight it is depends on [weight_ties]. *)
Theorem best_one_per_pair_heaviest (df : list Row) :
  match best_per_class_and_lift to_numeric df with
  | Ok out =>
      ∀ c l : string,
        ((∀ y, In y df → in_group c l y = false) →
           List.filter (in_group c l) out = [])
        ∧ ((∃ y, In y df ∧ in_group c l y = true) →
           ∃ r, In r df
             ∧ in_group c l r = true
             ∧ List.filter (in_group c l) out = [r]
             ∧ ∀ y, In y df → in_group c l y = true → at_most y r)
  | Raise e => e = TypeError ∧ has_numeric df ∧ has_blank df
  end.
Proof.
  destruct (weights_comparable df) eqn:Hc.
  2:{ rewrite (best_per_class_and_lift_Raise df Hc).
      split; [reflexivity|]. apply weights_comparable_false, Hc. }
  rewrite (best_per_class_and_lift_Ok df Hc). intros c l.
  rewrite best_group. split.
  - intros Hnone.
    assert (List.filter (in_group c l) df = []) as ->; [|reflexivity].
    destruct (List.filter (in_group c l) df) as [|y g] eqn:E; [reflexivity|].
    assert (In y (List.filter (in_group c l) df)) as [Hy Hg]%filter_In
      by (rewrite E; left; reflexivity).
    rewrite (Hnone y Hy) in Hg. discriminate.
  - intros (y & Hy & Hg).
    pose proof (sort_by_sorted _ (weight_order_total df) (weight_order_trans df)
                  (List.filter (in_group c l) df)) as Hs.
    pose proof (sort_by_In (worder df) (List.filter (in_group c l) df)) as Hin.
    destruct (sort_by (worder df) (List.filter (in_group c l) df))
      as [|r rest] eqn:E.
    { exfalso. apply (proj2 (Hin y)), filter_In. split; assumption. }
    pose proof (proj1 (Hin r) (or_introl eq_refl)) as Hr.
    apply filter_In in Hr as [Hr Gr].
    exists r. split; [exact Hr|]. split; [exact Gr|]. split; [reflexivity|].
    intros z Hz Gz. apply (comparable_at_most df z r Hc Hz Hr).
    assert (In z (r :: rest)) as [<-|Hz']
      by (apply Hin, filter_In; split; assumption).
    + destruct (weight_le_total (Weight r) (Weight r)); assumption.
    + apply StronglySorted_inv in Hs as [_ Hall].
      pose proof (proj1 (List.Forall_forall _ _) Hall z Hz') as Hle.
      apply lex_fst in Hle. exact Hle.
Qed.

(** C5. On a frame that mixes numeric and blank weights the reducer
    raises [TypeError].  On every other frame it returns, and any two rows
    of its output, one before the other, are in this order: the earlier
    has the smaller numeric class; a row whose class is not a number comes
    after every row whose class is one; two rows with non-numeric classes
    are in the order of their class strings; and two rows of one class
    are in the canonical order of their lifts, a lift outside the
    canonical four counting as last. *)
Theorem best_output_order (df : list Row) :
  match best_per_class_and_lift to_numeric df with
  | Ok out =>
      ∀ (pre mid post : list Row) (a b : Row),
        out = pre ++ a :: mid ++ b :: post →
        (∀ x y, to_numeric (Class a) = Some x →
                to_numeric (Class b) = Some y → (x <= y)%Q)
        ∧ (to_numeric (Class a) = None → to_numeric (Class b) = None)
        ∧ (to_numeric (Class a) = None → to_numeric (Class b) = None →
             String.leb (Class a) (Class b) = true)
        ∧ (Class a = Class b →
             (canonical_rank (Lift a) ≤ canonical_rank (Lift b))%nat)
  | Raise e => e = TypeError ∧ has_numeric df ∧ has_blank df
  end.
Proof.
  destruct (weights_comparable df) eqn:Hc.
  2:{ rewrite (best_per_class_and_lift_Raise df Hc).
      split; [reflexivity|]. apply weights_comparable_false, Hc. }
  rewrite (best_per_class_and_lift_Ok df Hc).
  intros pre mid post a b Hout.
  pose proof (sort_by_sorted _ (key_le_total to_numeric)
                (key_le_trans to_numeric)
                (drop_duplicates (sort_by (worder df) df))) as Hs.
  rewrite Hout in Hs. apply StronglySorted_before in Hs.
  unfold key_le, lex, class_num in *.
  apply andb_true_iff in Hs as [Hn Hrest].
  repeat split.
  - intros x y Ha Hb. rewrite Ha, Hb in Hn. apply Qle_bool_iff, Hn.
  - intros Ha. rewrite Ha in Hn.
    destruct (to_numeric (Class b)); [discriminate|reflexivity].
  - intros Ha Hb. rewrite Ha, Hb in Hrest. simpl in Hrest.
    apply andb_true_iff in Hrest as [Hrest _]. exact Hrest.
  - intros E. apply lift_order_rank. rewrite E in *.
    assert (num_le (to_numeric (Class b)) (to_numeric (Class b)) = true) as Hr
      by (destruct (num_le_total (to_numeric (Class b))
                      (to_numeric (Class b))); assumption).
    rewrite Hr in Hrest. simpl in Hrest.
    apply andb_true_iff in Hrest as [Hcl Hrest]. rewrite Hcl in Hrest.
    simpl in Hrest. apply Nat.leb_le, Hrest.
Qed.

Lemma tied_key_same (a b : Row) :
  tied (key_le to_numeric) a b = true →
  Class a = Class b ∧ canonical_rank (Lift a) = canonical_rank (Lift b).
Proof.
  unfold tied, key_le, lex.
  destruct (num_le (class_num to_numeric a) (class_num to_numeric b));
    [|discriminate].
  destruct (num_le (class_num to_numeric b) (class_num to_numeric a));
    [|rewrite andb_false_r; discriminate].
  destruct (String.leb (Class a) (Class b)) eqn:S1; [|discriminate].
  destruct (String.leb (Class b) (Class a)) eqn:S2;
    [|rewrite andb_false_r; discriminate].
  simpl. intros [L1%Nat.leb_le L2%Nat.leb_le]%andb_true_iff.
  split; [apply string_leb_antisym; assumption|].
  apply lift_order_rank in L1, L2. lia.
Qed.

Lemma tied_trans (x a b : Row) :
  tied (key_le to_numeric) x a = true → tied (key_le to_numeric) x b = true →
  tied (key_le to_numeric) a b = true.
Proof.
  unfold tied. intros [Hxa Hax]%andb_true_iff [Hxb Hbx]%andb_true_iff.
  apply andb_true_iff. split; eapply key_le_trans; eassumption.
Qed.

(** C6, amended.  Reducing the output of the reducer returns the same
    rows, and returns them in the same order whenever no two rows of the
    output have the same class, lifts of the same canonical rank and the
    same weight. *)
Theorem best_twice (df out : list Row) :
  best_per_class_and_lift to_numeric df = Ok out →
  ∃ out', best_per_class_and_lift to_numeric out = Ok out'
    ∧ Permutation out out'
    ∧ ((∀ a b, In a out → In b out → Class a = Class b →
               canonical_rank (Lift a) = canonical_rank (Lift b) →
               same_weight a b → a = b) →
       out' = out).
Proof.
  intros [Hc ->]%best_per_class_and_lift_inv.
  set (kle := key_le to_numeric).
  set (m := drop_duplicates (sort_by (worder df) df)).
  set (out := sort_by kle m).
  pose proof (key_le_total to_numeric) as KT.
  pose proof (key_le_trans to_numeric) as KR.
  assert (incl out df) as Hincl.
  { intros r Hr.
    apply (proj1 (sort_by_In _ _ _)), drop_duplicates_from_incl in Hr.
    apply (proj1 (sort_by_In _ _ _)) in Hr. exact Hr. }
  assert (weights_comparable out = true) as Hco
    by (apply (weights_comparable_incl df); assumption).
  assert (Permutation (sort_by (worder out) out) m) as Hperm.
  { etransitivity; [apply sort_by_perm|]. apply sort_by_perm. }
  rewrite (best_per_class_and_lift_Ok out Hco).
  eexists. split; [reflexivity|].
  unfold drop_duplicates.
  rewrite drop_duplicates_from_id.
  2:{ rewrite Hperm. apply drop_duplicates_from_NoDup. }
  2:{ intros r _. apply not_elem_of_empty. }
  fold kle. split.
  { symmetry. etransitivity; apply sort_by_perm. }
  intros Hno. apply (sorted_tied_eq kle KT).
  - apply sort_by_sorted; assumption.
  - apply sort_by_sorted; assumption.
  - intros x.
    rewrite (sort_by_stable kle KT KR).
    rewrite (filter_sort_by _ (weight_order_total out) (weight_order_trans out)).
    apply sort_by_id.
    assert (StronglySorted (λ a b, weight_ge a b = true)
              (List.filter (tied kle x) out)) as Hs.
    { unfold out. rewrite (sort_by_stable kle KT KR).
      apply (StronglySorted_filter weight_ge).
      eapply StronglySorted_weaken;
        [|apply drop_duplicates_from_sorted,
            (sort_by_sorted _ (weight_order_total df) (weight_order_trans df))].
      intros a b _ _ H. exact (lex_fst _ _ _ _ H). }
    eapply StronglySorted_weaken; [|exact Hs].
    intros a b [Ha Ta]%filter_In [Hb Tb]%filter_In Hab.
    unfold lex. rewrite Hab. simpl.
    destruct (weight_ge b a) eqn:Hba; [simpl|reflexivity].
    destruct (tied_key_same a b (tied_trans x a b Ta Tb)) as [Ecl Erk].
    assert (a = b) as <-.
    { apply Hno; try assumption.
      apply (comparable_same_weight out a b Hco Ha Hb); assumption. }
    unfold by_place. apply Nat.leb_refl.
Qed.

End ReducerClaims.

(** ** [render_filters] *)

Lemma compile_plain (term : string) :
  plain term = true → Re.compile term = Some (literal term).
Proof.
  unfold plain, literal. induction term as [|c term IH]; simpl; [reflexivity|].
  intros [Hc Ht]%andb_true_iff.
  destruct (Ascii.eqb_spec c ".") as [->|_]; [discriminate|].
  destruct (Re.is_meta c); [discriminate|].
  rewrite (IH Ht). reflexivity.
Qed.

Lemma match_here_literal (t s : string) :
  Re.match_here (literal t) s = true ↔ ∃ post, s = t +:+ post.
Proof.
  revert s. induction t as [|c t IH]; intros s.
  - split; [exists s|]; reflexivity.
  - destruct s as [|d s]; cbn [literal list_ascii_of_string fmap list_fmap Re.match_here].
    + split; [discriminate|intros [post [=]]].
    + fold (literal t). rewrite andb_true_iff, IH. cbn [Re.atom_matches].
      rewrite Ascii.eqb_eq. split.
      * intros [-> [post ->]]. exists post. reflexivity.
      * intros [post [= -> ->]]. eauto.
Qed.

Lemma search_literal (t s : string) :
  Re.search (literal t) s = true ↔ is_substring t s.
Proof.
  unfold is_substring. induction s as [|d s IH]; cbn [Re.search].
  - rewrite orb_false_r, match_here_literal. split.
    + intros [post ->]. exists "", post. reflexivity.
    + intros (pre & post & H). destruct pre; [eauto|discriminate].
  - rewrite orb_true_iff, match_here_literal, IH. split.
    + intros [[post ->]|(pre & post & ->)].
      * exists "", post. reflexivity.
      * exists (String d pre), post. reflexivity.
    + intros (pre & post & H). destruct pre as [|e pre].
      * left. exists post. exact H.
      * right. rewrite append_cons in H. injection H as -> ->. eauto.
Qed.

Lemma select_eq_incl (col : Row → string) (choice : string) (df : list Row) :
  incl (select_eq col choice df) df.
Proof.
  unfold select_eq. destruct (negb _); [|apply incl_refl].
  intros r [Hr _]%filter_In. exact Hr.
Qed.

Section FilterClaims.
Context {lib : Lib}.

Lemma search_loop_incl (terms : list string) (df out : list Row) :
  search_loop terms df = Ok out → incl out df.
Proof.
  revert df. induction terms as [|t terms IH]; intros df; simpl.
  - intros [= <-]. apply incl_refl.
  - destruct (re_search t); [|discriminate].
    intros H r Hr. apply (IH _ H), filter_In in Hr as [Hr _]. exact Hr.
Qed.


Lemma render_filters_sel (df out : list Row) (sel sel' : Sel) :
  render_filters df sel = Ok (out, sel') → sel' = sel.
Proof.
  unfold render_filters. destruct (negb _).
  - destruct (search_loop _ df); [|discriminate].
    simpl. intros [= _ <-]. reflexivity.
  - destruct (select_equipment _ _ _); [|discriminate].
    simpl. intros [= _ <-]. reflexivity.
Qed.

Lemma render_filters_incl (df out : list Row) (sel sel' : Sel) :
  render_filters df sel = Ok (out, sel') → incl out df.
Proof.
  unfold render_filters. destruct (negb _).
  - destruct (search_loop _ df) as [filtered|] eqn:E; [|discriminate].
    simpl. intros [= <- _]. apply (search_loop_incl _ _ _ E).
  - unfold select_equipment.
    set (f3 := select_eq Testing _ _).
    assert (incl f3 df) as H3.
    { unfold f3. eapply incl_tran; [apply select_eq_incl|].
      eapply incl_tran; apply select_eq_incl. }
    destruct (negb _).
    + destruct (equipment_map df !! equipment sel); [|discriminate].
      simpl. intros [= <- _].
      eapply incl_tran; [apply select_eq_incl|].
      intros r [Hr _]%filter_In. apply H3, Hr.
    + simpl. intros [= <- _].
      eapply incl_tran; [apply select_eq_incl|exact H3].
Qed.

(** C3. With a non-empty search string the rows returned do not depend on
    the five structured selections. *)
Theorem search_ignores_structured_filters (df : list Row) (F1 F2 : Sel) :
  search F1 ≠ "" → search F2 = search F1 →
  fst <$> render_filters df F1 = fst <$> render_filters df F2.
Proof.
  intros Hne Heq. unfold render_filters. rewrite Heq.
  destruct (String.eqb_spec (search F1) "") as [E|_]; [contradiction|].
  simpl. destruct (search_loop _ df); reflexivity.
Qed.


(** C10. A search string made of whitespace only takes the search branch
    with no term: the whole frame is returned, whatever the structured
    selections are. *)
Theorem whitespace_search_returns_all (df : list Row) (sel : Sel) :
  search sel ≠ "" →
  whitespace_only (search sel) →
  render_filters df sel = Ok (df, sel)
  ∧ terms_of (search sel) = [].
Proof.
  intros Hne Hws. unfold render_filters, terms_of.
  destruct (String.eqb_spec (search sel) "") as [E|_]; [contradiction|].
  rewrite (lower_whitespace _ Hws), (split_whitespace _ Hws). split; reflexivity.
Qed.

End FilterClaims.

(** ** The invariants of [load_data] *)

Lemma NA_not_cell (s : string) : s ∈ NA_VALUES → Str.strip s ≠ "cell".
Proof.
  unfold NA_VALUES. rewrite !elem_of_union, !elem_of_singleton.
  intros H. repeat (destruct H as [H|H]); subst s; discriminate.
Qed.

Section LoadClaims.
Context {lib : Lib}.
Variable to_numeric : string → option Q.


(** C8. [Division_base] followed by "DT" when [Testing] is
    "Drug Tested", and by nothing otherwise, is [Division_raw]. *)
Theorem division_base_rebuilds_raw (csv : list CsvRow) (r : Row) :
  In r (load_data to_numeric csv) →
  Division_base r
    +:+ (if String.eqb (Testing r) "Drug Tested" then "DT" else "")
  = Division_raw r.
Proof.
  intros (c & _ & _ & _ & ->)%load_data_In.
  unfold normalize. cbn [Division_base Division_raw Testing read_row raw_Division].
  destruct (read_cell (csv_Division c)) as [d|]; [|reflexivity].
  cbn [fmap option_fmap option_map fillna default testing_label].
  pose proof (sub_DT_end_strip d) as H.
  destruct (Str.endswith "DT" (Str.strip d)); exact H.
Qed.

Lemma load_data_valid_class (csv : list CsvRow) (r : Row) :
  In r (load_data to_numeric csv) → Class r ∉ INVALID_WEIGHT_CLASSES.
Proof.
  intros (c & _ & _ & Hv & ->)%load_data_In.
  unfold valid_class in Hv. apply negb_true_iff, bool_decide_eq_false in Hv.
  exact Hv.
Qed.

(** C9. No row that [load_data] returns has a class of the invalid set,
    and neither has any row of a frame filtered or reduced from its
    result; a CSV line whose class token is "cell" yields no row. *)
Theorem invalid_class_never_shown (csv : list CsvRow) :
  (∀ r, In r (load_data to_numeric csv) →
        Class r ∉ INVALID_WEIGHT_CLASSES)
  ∧ (∀ c, In c csv → Str.strip (csv_Class c) = "cell" →
          ¬ In (normalize to_numeric (read_row c)) (load_data to_numeric csv))
  ∧ (∀ sel filtered sel',
       render_filters (load_data to_numeric csv) sel = Ok (filtered, sel') →
       ∀ r, In r filtered → Class r ∉ INVALID_WEIGHT_CLASSES)
  ∧ (∀ sel filtered sel' reduced,
       render_filters (load_data to_numeric csv) sel = Ok (filtered, sel') →
       best_per_class_and_lift to_numeric filtered = Ok reduced →
       ∀ r, In r reduced → Class r ∉ INVALID_WEIGHT_CLASSES).
Proof.
  split; [apply load_data_valid_class|]. split; [|split].
  - intros c _ Hcell Hin. apply load_data_valid_class in Hin.
    apply Hin. cbn [normalize Class]. unfold class_token.
    cbn [read_row raw_Class]. unfold read_cell.
    case_decide as Hna; [destruct (NA_not_cell _ Hna Hcell)|].
    unfold astype_str. simpl. rewrite Hcell.
    unfold INVALID_WEIGHT_CLASSES. set_solver.
  - intros sel filtered sel' Hf r Hr.
    apply (load_data_valid_class csv), (render_filters_incl _ _ _ _ Hf), Hr.
  - intros sel filtered sel' reduced Hf Hb r Hr.
    apply (load_data_valid_class csv), (render_filters_incl _ _ _ _ Hf).
    apply (best_per_class_and_lift_incl _ _ _ Hb), Hr.
Qed.

End LoadClaims.

(** ** The claims on concrete data *)

(** C1, on its failing input.  The file holds a line whose weight text is
    not a number and a line without a weight: [load_data] drops the
    second but keeps the first, the weight of its row is the blank that
    [fillna("")] leaves in place of NaN, and [render_table] fails on the
    frame. *)
Theorem load_data_keeps_unparseable_weight :
  parse_decimal "abc" = None
  ∧ load_data parse_decimal unparseable_csv = [ann; cat]
  ∧ Weight cat = WBlank
  ∧ render_table (lib := sample_lib) parse_decimal [ann; cat] default_state
    = Failed (Propagated TypeError).
Proof. repeat split; vm_compute; reflexivity. Qed.

(** C2 fails as stated: of two rows of one pair at the greatest weight,
    the reducer keeps the later one when the sort of line 109 leaves the
    later one first. *)
Lemma best_keeps_later_of_tied_rows :
  tied_frame = [ entry "r0" 100 "90" "Squat"; entry "r1" 100 "90" "Bench";
                 entry "r2" 200 "100" "Squat"; entry "r3" 200 "100" "Squat" ]
  ∧ best_per_class_and_lift (lib := later_first) parse_decimal tied_frame
    = Ok [ entry "r0" 100 "90" "Squat"; entry "r1" 100 "90" "Bench";
           entry "r3" 200 "100" "Squat" ]
  ∧ same_weight (entry "r2" 200 "100" "Squat") (entry "r3" 200 "100" "Squat")
  ∧ entry "r2" 200 "100" "Squat" ≠ entry "r3" 200 "100" "Squat".
Proof.
  split; [reflexivity|]. split; [vm_compute; reflexivity|].
  split; [reflexivity|discriminate].
Qed.

(** C6 fails as stated: two rows of one class with lifts outside the
    canonical four and one weight change places when the output is
    reduced again. *)
Lemma best_twice_swaps_tied_rows :
  best_per_class_and_lift (lib := later_first) parse_decimal curl_frame
  = Ok [ entry "a0" 100 "50" "Squat"; entry "a1" 100 "50" "Bench";
         entry "b3" 200 "60" "Curl"; entry "b2" 200 "60" "Press" ]
  ∧ best_per_class_and_lift (lib := later_first) parse_decimal
      [ entry "a0" 100 "50" "Squat"; entry "a1" 100 "50" "Bench";
        entry "b3" 200 "60" "Curl"; entry "b2" 200 "60" "Press" ]
    = Ok [ entry "a0" 100 "50" "Squat"; entry "a1" 100 "50" "Bench";
           entry "b2" 200 "60" "Press"; entry "b3" 200 "60" "Curl" ].
Proof. split; vm_compute; reflexivity. Qed.




Lemma division_base_rebuilds_raw_witness :
  In eve (load_data parse_decimal sample_csv)
  ∧ Division_base eve
      +:+ (if String.eqb (Testing eve) "Drug Tested" then "DT" else "")
    = Division_raw eve.
Proof.
  assert (In eve (load_data parse_decimal sample_csv)) as H
    by (vm_compute; right; right; left; reflexivity).
  split; [exact H|].
  exact (division_base_rebuilds_raw parse_decimal sample_csv eve H).
Defined.

Lemma invalid_class_never_shown_witness :
  In (csv_row "Dan" "100" "cell" "Opens" "B" "Multi-ply" "Leeds") sample_csv
  ∧ Str.strip (csv_Class (csv_row "Dan" "100" "cell" "Opens" "B" "Multi-ply" "Leeds"))
    = "cell"
  ∧ ¬ In (normalize parse_decimal
            (read_row (csv_row "Dan" "100" "cell" "Opens" "B" "Multi-ply" "Leeds")))
         (load_data parse_decimal sample_csv).
Proof.
  assert (In (csv_row "Dan" "100" "cell" "Opens" "B" "Multi-ply" "Leeds")
            sample_csv) as H by (right; right; left; reflexivity).
  split; [exact H|]. split; [reflexivity|].
  exact (proj1 (proj2 (invalid_class_never_shown (lib := sample_lib)
                         parse_decimal sample_csv))
           _ H eq_refl).
Defined.

Lemma best_one_per_pair_heaviest_witness :
  best_per_class_and_lift (lib := sample_lib) parse_decimal mixed_frame
  = Ok [ entry "h" 60 "9" "Total"; entry "c" 120 "82.5" "Bench";
         entry "d" 180 "100" "Squat"; entry "g" 250 "100" "Deadlift";
         entry "b" 500 "100" "Total"; entry "e" 90 "100" "Strict Curl";
         entry "f" 310 "140+" "Squat" ]
  ∧ ∀ c l : string,
      ((∀ y, In y mixed_frame → in_group c l y = false) →
         List.filter (in_group c l)
           [ entry "h" 60 "9" "Total"; entry "c" 120 "82.5" "Bench";
             entry "d" 180 "100" "Squat"; entry "g" 250 "100" "Deadlift";
             entry "b" 500 "100" "Total"; entry "e" 90 "100" "Strict Curl";
             entry "f" 310 "140+" "Squat" ] = [])
      ∧ ((∃ y, In y mixed_frame ∧ in_group c l y = true) →
         ∃ r, In r mixed_frame
           ∧ in_group c l r = true
           ∧ List.filter (in_group c l)
               [ entry "h" 60 "9" "Total"; entry "c" 120 "82.5" "Bench";
                 entry "d" 180 "100" "Squat"; entry "g" 250 "100" "Deadlift";
                 entry "b" 500 "100" "Total"; entry "e" 90 "100" "Strict Curl";
                 entry "f" 310 "140+" "Squat" ] = [r]
           ∧ ∀ y, In y mixed_frame → in_group c l y = true → at_most y r).
Proof.
  pose proof (best_one_per_pair_heaviest (lib := sample_lib) parse_decimal
                mixed_frame) as H.
  destruct (best_per_class_and_lift (lib := sample_lib) parse_decimal mixed_frame)
    as [out|e] eqn:E; [|vm_compute in E; discriminate E].
  assert (out = [ entry "h" 60 "9" "Total"; entry "c" 120 "82.5" "Bench";
                  entry "d" 180 "100" "Squat"; entry "g" 250 "100" "Deadlift";
                  entry "b" 500 "100" "Total"; entry "e" 90 "100" "Strict Curl";
                  entry "f" 310 "140+" "Squat" ]) as <-
    by (vm_compute in E; injection E as <-; reflexivity).
  split; [reflexivity|exact H].
Defined.

Lemma best_output_order_witness :
  best_per_class_and_lift (lib := sample_lib) parse_decimal mixed_frame
  = Ok [ entry "h" 60 "9" "Total"; entry "c" 120 "82.5" "Bench";
         entry "d" 180 "100" "Squat"; entry "g" 250 "100" "Deadlift";
         entry "b" 500 "100" "Total"; entry "e" 90 "100" "Strict Curl";
         entry "f" 310 "140+" "Squat" ]
  ∧ ∀ (pre mid post : list Row) (a b : Row),
      [ entry "h" 60 "9" "Total"; entry "c" 120 "82.5" "Bench";
        entry "d" 180 "100" "Squat"; entry "g" 250 "100" "Deadlift";
        entry "b" 500 "100" "Total"; entry "e" 90 "100" "Strict Curl";
        entry "f" 310 "140+" "Squat" ] = pre ++ a :: mid ++ b :: post →
      (∀ x y, parse_decimal (Class a) = Some x →
              parse_decimal (Class b) = Some y → (x <= y)%Q)
      ∧ (parse_decimal (Class a) = None → parse_decimal (Class b) = None)
      ∧ (parse_decimal (Class a) = None → parse_decimal (Class b) = None →
           String.leb (Class a) (Class b) = true)
      ∧ (Class a = Class b →
           (canonical_rank (Lift a) ≤ canonical_rank (Lift b))%nat).
Proof.
  pose proof (best_output_order (lib := sample_lib) parse_decimal mixed_frame)
    as H.
  destruct (best_per_class_and_lift (lib := sample_lib) parse_decimal mixed_frame)
    as [out|e] eqn:E; [|vm_compute in E; discriminate E].
  assert (out = [ entry "h" 60 "9" "Total"; entry "c" 120 "82.5" "Bench";
                  entry "d" 180 "100" "Squat"; entry "g" 250 "100" "Deadlift";
                  entry "b" 500 "100" "Total"; entry "e" 90 "100" "Strict Curl";
                  entry "f" 310 "140+" "Squat" ]) as <-
    by (vm_compute in E; injection E as <-; reflexivity).
  split; [reflexivity|exact H].
Defined.

Lemma best_twice_witness :
  best_per_class_and_lift (lib := sample_lib) parse_decimal mixed_frame
  = Ok [ entry "h" 60 "9" "Total"; entry "c" 120 "82.5" "Bench";
         entry "d" 180 "100" "Squat"; entry "g" 250 "100" "Deadlift";
         entry "b" 500 "100" "Total"; entry "e" 90 "100" "Strict Curl";
         entry "f" 310 "140+" "Squat" ]
  ∧ ∃ out',
      best_per_class_and_lift (lib := sample_lib) parse_decimal
        [ entry "h" 60 "9" "Total"; entry "c" 120 "82.5" "Bench";
          entry "d" 180 "100" "Squat"; entry "g" 250 "100" "Deadlift";
          entry "b" 500 "100" "Total"; entry "e" 90 "100" "Strict Curl";
          entry "f" 310 "140+" "Squat" ] = Ok out'
      ∧ Permutation
          [ entry "h" 60 "9" "Total"; entry "c" 120 "82.5" "Bench";
            entry "d" 180 "100" "Squat"; entry "g" 250 "100" "Deadlift";
            entry "b" 500 "100" "Total"; entry "e" 90 "100" "Strict Curl";
            entry "f" 310 "140+" "Squat" ] out'
      ∧ ((∀ a b,
            In a [ entry "h" 60 "9" "Total"; entry "c" 120 "82.5" "Bench";
                   entry "d" 180 "100" "Squat"; entry "g" 250 "100" "Deadlift";
                   entry "b" 500 "100" "Total"; entry "e" 90 "100" "Strict Curl";
                   entry "f" 310 "140+" "Squat" ] →
            In b [ entry "h" 60 "9" "Total"; entry "c" 120 "82.5" "Bench";
                   entry "d" 180 "100" "Squat"; entry "g" 250 "100" "Deadlift";
                   entry "b" 500 "100" "Total"; entry "e" 90 "100" "Strict Curl";
                   entry "f" 310 "140+" "Squat" ] →
            Class a = Class b →
            canonical_rank (Lift a) = canonical_rank (Lift b) →
            same_weight a b → a = b) →
         out' = [ entry "h" 60 "9" "Total"; entry "c" 120 "82.5" "Bench";
                  entry "d" 180 "100" "Squat"; entry "g" 250 "100" "Deadlift";
                  entry "b" 500 "100" "Total"; entry "e" 90 "100" "Strict Curl";
                  entry "f" 310 "140+" "Squat" ]).
Proof.
  assert (best_per_class_and_lift (lib := sample_lib) parse_decimal mixed_frame
          = Ok [ entry "h" 60 "9" "Total"; entry "c" 120 "82.5" "Bench";
                 entry "d" 180 "100" "Squat"; entry "g" 250 "100" "Deadlift";
                 entry "b" 500 "100" "Total"; entry "e" 90 "100" "Strict Curl";
                 entry "f" 310 "140+" "Squat" ]) as H
    by (vm_compute; reflexivity).
  split; [exact H|].
  exact (best_twice (lib := sample_lib) parse_decimal mixed_frame _ H).
Defined.

Lemma search_ignores_structured_filters_witness :
  search (no_filters "leeds") ≠ ""
  ∧ search (women_raw "leeds") = search (no_filters "leeds")
  ∧ fst <$> render_filters (lib := sample_lib) [ann; bob; eve] (no_filters "leeds")
    = fst <$> render_filters (lib := sample_lib) [ann; bob; eve] (women_raw "leeds").
Proof.
  assert (search (no_filters "leeds") ≠ "") as H by (simpl; discriminate).
  split; [exact H|]. split; [reflexivity|].
  exact (search_ignores_structured_filters (lib := sample_lib) [ann; bob; eve]
           (no_filters "leeds") (women_raw "leeds") H eq_refl).
Defined.


Lemma blank_query_whitespace : whitespace_only blank_query.
Proof.
  unfold blank_query. change (bytes [9]) with (bytes [9] +:+ "").
  repeat (apply ws_more; [unfold WHITESPACE; simpl; tauto|]).
  apply ws_empty.
Qed.

Lemma whitespace_search_returns_all_witness :
  search (women_raw blank_query) ≠ ""
  ∧ whitespace_only (search (women_raw blank_query))
  ∧ render_filters (lib := sample_lib) [ann; bob; eve] (women_raw blank_query)
    = Ok ([ann; bob; eve], women_raw blank_query)
  ∧ terms_of (lib := sample_lib) (search (women_raw blank_query)) = [].
Proof.
  assert (search (women_raw blank_query) ≠ "") as H by (vm_compute; discriminate).
  split; [exact H|]. split; [exact blank_query_whitespace|].
  exact (whitespace_search_returns_all (lib := sample_lib) [ann; bob; eve]
           (women_raw blank_query) H blank_query_whitespace).
Defined.

Example reduce_mixed_weights :
  best_per_class_and_lift (lib := sample_lib) parse_decimal [ann; cat]
  = Raise TypeError.
Proof. reflexivity. Qed.

Example search_sample :
  fst <$> render_filters (lib := sample_lib) [ann; bob; eve]
            (no_filters "100 junior manchester")
  = Ok [ann].
Proof. vm_compute. reflexivity. Qed.

(** * Further properties of the code *)

(** ** [load_data]: the cleaned columns *)

Section LoadExtras.
Variable to_numeric : string → option Q.


(** X2. [Class] and [Division_raw] of a returned row carry no leading or
    trailing whitespace: stripping them again changes nothing. *)
Theorem load_data_columns_stripped (csv : list CsvRow) (r : Row) :
  In r (load_data to_numeric csv) →
  Str.strip (Class r) = Class r
  ∧ Str.strip (Division_raw r) = Division_raw r.
Proof.
  intros (c & _ & _ & _ & ->)%load_data_In.
  unfold normalize, class_token. cbn [Class Division_raw]. split.
  - apply strip_idem.
  - destruct (raw_Division (read_row c)); simpl; [apply strip_idem|reflexivity].
Qed.

End LoadExtras.

(** ** [render_filters]: the structured filters *)

Lemma filter_and {A : Type} (f g : A → bool) (l : list A) :
  List.filter f (List.filter g l) = List.filter (λ x, g x && f x) l.
Proof.
  induction l as [|x l IH]; simpl; [reflexivity|].
  destruct (g x); simpl; [destruct (f x)|]; rewrite IH; reflexivity.
Qed.

Lemma filter_all {A : Type} (l : list A) : List.filter (λ _, true) l = l.
Proof. induction l as [|x l IH]; simpl; [|rewrite IH]; reflexivity. Qed.

Lemma select_eq_filter (col : Row → string) (choice : string) (l : list Row) :
  select_eq col choice l = List.filter (λ r, accepts choice (col r)) l.
Proof.
  unfold select_eq, accepts. destruct (String.eqb choice "All"); simpl.
  - symmetry. apply filter_all.
  - reflexivity.
Qed.

Lemma unique_In (l : list string) (x : string) : In x (unique l) ↔ In x l.
Proof.
  induction l as [|a l IH]; simpl; [tauto|].
  rewrite filter_In, IH, negb_true_iff, String.eqb_neq.
  destruct (String.eqb_spec x a) as [->|Hne]; [tauto|].
  split; [intros [->|[H _]]; [congruence|auto] | intros [->|H]; [congruence|auto]].
Qed.

Lemma unique_NoDup (l : list string) : List.NoDup (unique l).
Proof.
  induction l as [|a l IH]; simpl; constructor.
  - intros [_ H]%filter_In. rewrite String.eqb_refl in H. discriminate.
  - apply List.NoDup_filter, IH.
Qed.

(** Folding [zip] into a dict: the last entry of a key wins. *)
Lemma foldl_insert_snoc (f : string → string) (l : list string) (x : string) :
  foldl (λ m kv, <[kv.1 := kv.2]> m) (∅ : gmap string string)
        (zip (f <$> (l ++ [x])) (l ++ [x])) =
  <[f x := x]> (foldl (λ m kv, <[kv.1 := kv.2]> m) (∅ : gmap string string)
                      (zip (f <$> l) l)).
Proof.
  generalize (∅ : gmap string string).
  induction l as [|a l IH]; intros m; simpl; [reflexivity|]. apply IH.
Qed.

Lemma StronglySorted_snoc {A : Type} (R : A → A → Prop) (l : list A) (x : A) :
  StronglySorted R (l ++ [x]) → StronglySorted R l ∧ Forall (λ y, R y x) l.
Proof.
  induction l as [|a l IH]; simpl; [repeat constructor|].
  intros [Hs Ha]%StronglySorted_inv. destruct (IH Hs) as [Hl Hx].
  split.
  - constructor; [exact Hl|].
    apply List.Forall_forall. intros y Hy.
    apply (proj1 (List.Forall_forall _ _) Ha). apply in_or_app. auto.
  - constructor; [|exact Hx].
    apply (proj1 (List.Forall_forall _ _) Ha). apply in_or_app. simpl. auto.
Qed.

Lemma zip_dict_lookup (f : string → string) (l : list string) (k e : string) :
  StronglySorted (λ a b, String.leb a b = true) l →
  foldl (λ m kv, <[kv.1 := kv.2]> m) (∅ : gmap string string)
        (zip (f <$> l) l) !! k = Some e
  ↔ In e l ∧ f e = k ∧ ∀ e', In e' l → f e' = k → String.leb e' e = true.
Proof.
  induction l as [|x l IH] using rev_ind; intros Hs.
  - simpl. rewrite lookup_empty. split; [discriminate|intros [[] _]].
  - apply StronglySorted_snoc in Hs as [Hs Hx].
    rewrite foldl_insert_snoc.
    destruct (decide (f x = k)) as [Hk|Hk].
    + rewrite Hk, lookup_insert_eq. split.
      * intros [= <-]. split; [apply in_or_app; simpl; auto|].
        split; [exact Hk|]. intros e' [He'|[<-|[]]]%in_app_or _.
        -- exact (proj1 (List.Forall_forall _ _) Hx e' He').
        -- destruct (String.leb_total x x); assumption.
      * intros (He & _ & Hmax). f_equal.
        apply String.leb_antisym.
        -- apply Hmax; [apply in_or_app; simpl; auto|exact Hk].
        -- apply in_app_or in He as [He|[<-|[]]].
           ++ exact (proj1 (List.Forall_forall _ _) Hx e He).
           ++ destruct (String.leb_total x x); assumption.
    + rewrite lookup_insert_ne by exact Hk. rewrite (IH Hs). split.
      * intros (He & Hf & Hmax). split; [apply in_or_app; auto|].
        split; [exact Hf|]. intros e' [He'|[<-|[]]]%in_app_or Hf'.
        -- apply Hmax; assumption.
        -- contradiction.
      * intros (He & Hf & Hmax).
        apply in_app_or in He as [He|[<-|[]]]; [|contradiction].
        split; [exact He|]. split; [exact Hf|].
        intros e' He' Hf'. apply Hmax; [apply in_or_app; auto|exact Hf'].
Qed.

Lemma equipment_options_In (df : list Row) (e : string) :
  In e (equipment_options df) ↔ ∃ r, In r df ∧ Equipment r = e.
Proof.
  unfold equipment_options. rewrite sort_by_In, unique_In, in_map_iff.
  split; intros (r & H1 & H2); exists r; auto.
Qed.

Lemma equipment_options_sorted (df : list Row) :
  StronglySorted (λ a b, String.leb a b = true) (equipment_options df).
Proof.
  apply sort_by_sorted; [apply String.leb_total|apply string_leb_trans].
Qed.

(** X6. [equipment_map] sends a label to a raw equipment value of the
    frame that carries this label, and when several do, to the greatest of
    them in string order; it has no entry for a label that no value of the
    frame carries. *)
Theorem equipment_map_lookup (df : list Row) (label e : string) :
  equipment_map df !! label = Some e
  ↔ (∃ r, In r df ∧ Equipment r = e)
    ∧ equipment_label e = label
    ∧ ∀ r, In r df → equipment_label (Equipment r) = label →
           String.leb (Equipment r) e = true.
Proof.
  unfold equipment_map.
  rewrite (zip_dict_lookup _ _ _ _ (equipment_options_sorted df)).
  rewrite equipment_options_In. split; intros (He & Hl & Hmax).
  - split; [exact He|]. split; [exact Hl|]. intros r Hr Hr'.
    apply Hmax; [apply equipment_options_In; eauto|exact Hr'].
  - split; [exact He|]. split; [exact Hl|].
    intros e' (r & Hr & <-)%equipment_options_In Hf. apply Hmax; assumption.
Qed.

Lemma zip_dict_is_Some (f : string → string) (l : list string) (k : string) :
  is_Some (foldl (λ m kv, <[kv.1 := kv.2]> m) (∅ : gmap string string)
                 (zip (f <$> l) l) !! k)
  ↔ In k (f <$> l).
Proof.
  induction l as [|x l IH] using rev_ind.
  - simpl. rewrite lookup_empty. split; [intros [? [=]]|intros []].
  - rewrite foldl_insert_snoc, fmap_app, in_app_iff. simpl.
    destruct (decide (f x = k)) as [Hk|Hk].
    + rewrite Hk, lookup_insert_eq. split; [auto|eauto].
    + rewrite lookup_insert_ne by exact Hk. rewrite IH.
      split; [auto|intros [H|[H|[]]]; [exact H|contradiction]].
Qed.

Lemma equipment_map_is_Some (df : list Row) (label : string) :
  is_Some (equipment_map df !! label) ↔ In label (equipment_display df).
Proof. apply zip_dict_is_Some. Qed.

Section StructuredExtras.
Context {lib : Lib}.

(** X4. With an empty search string and an equipment selection that is
    "All" or one of the offered labels, [render_filters] returns the rows
    of the frame, in their order, that every one of the five selections
    accepts: the five filters act as one conjunction. *)
Theorem structured_filters_conjunction (df : list Row) (sel : Sel) :
  search sel = "" →
  equipment sel = "All" ∨ In (equipment sel) (equipment_display df) →
  render_filters df sel =
  Ok (List.filter
        (λ r, accepts (sex sel) (Sex r)
              && accepts (division sel) (Division_base r)
              && accepts (testing_status sel) (Testing r)
              && equipment_accepts df (equipment sel) r
              && accepts (weight_class sel) (Class r)) df,
      sel).
Proof.
  intros Hs He. unfold render_filters. rewrite Hs. simpl.
  rewrite !select_eq_filter, !filter_and.
  unfold select_equipment, equipment_accepts.
  destruct (String.eqb_spec (equipment sel) "All") as [Ha|Ha]; simpl.
  - rewrite select_eq_filter, filter_and. do 2 f_equal.
    apply filter_ext. intros r. simpl.
    rewrite ?andb_true_r, ?andb_assoc. reflexivity.
  - destruct He as [He|He]; [contradiction|].
    apply equipment_map_is_Some in He as [e He]. rewrite He. simpl.
    rewrite select_eq_filter, !filter_and. do 2 f_equal.
    apply filter_ext. intros r. rewrite ?andb_assoc. reflexivity.
Qed.

End StructuredExtras.

(** ** [render_filters]: the free-text search *)

Section SearchExtras.
Context {lib : Lib}.

Lemma search_loop_Ok (terms : list string) (df : list Row) :
  Forall (λ t, is_Some (re_search t)) terms →
  search_loop terms df =
  Ok (List.filter (λ r, forallb (λ t, term_hits t r) terms) df).
Proof.
  intros H. revert df. induction H as [|t terms [p Hp] _ IH]; intros df; simpl.
  - rewrite filter_all. reflexivity.
  - rewrite Hp, IH, filter_and. f_equal. apply filter_ext. intros r.
    unfold term_hits at 2. rewrite Hp. reflexivity.
Qed.

Lemma search_loop_Raise (terms : list string) (df : list Row) :
  Exists (λ t, re_search t = None) terms →
  search_loop terms df = Raise ReError.
Proof.
  intros H. revert df. induction H as [t terms Ht|t terms _ IH]; intros df; simpl.
  - rewrite Ht. reflexivity.
  - destruct (re_search t); [apply IH|reflexivity].
Qed.

Lemma compiles_or_not (terms : list string) :
  Forall (λ t, is_Some (re_search t)) terms
  ∨ Exists (λ t, re_search t = None) terms.
Proof.
  induction terms as [|t terms [IH|IH]]; [left; constructor| |].
  - destruct (re_search t) as [p|] eqn:E.
    + left. constructor; [rewrite E; eauto|exact IH].
    + right. constructor. exact E.
  - right. apply Exists_cons_tl, IH.
Qed.

Lemma search_loop_same_terms (terms terms' : list string) (df : list Row) :
  (∀ t, In t terms ↔ In t terms') →
  search_loop terms df = search_loop terms' df.
Proof.
  intros Hsame. destruct (compiles_or_not terms) as [H|H].
  - assert (Forall (λ t, is_Some (re_search t)) terms') as H'.
    { apply List.Forall_forall. intros t Ht%Hsame.
      exact (proj1 (List.Forall_forall _ _) H t Ht). }
    rewrite (search_loop_Ok _ _ H), (search_loop_Ok _ _ H'). f_equal.
    apply filter_ext. intros r.
    apply eq_true_iff_eq. rewrite !forallb_forall.
    split; intros Hall t Ht; apply Hall, Hsame, Ht.
  - assert (Exists (λ t, re_search t = None) terms') as H'.
    { apply List.Exists_exists in H as (t & Ht & Hc).
      apply List.Exists_exists. exists t. split; [apply Hsame, Ht|exact Hc]. }
    rewrite (search_loop_Raise _ _ H), (search_loop_Raise _ _ H'). reflexivity.
Qed.

(** X7. Two non-empty search strings with the same set of lowercased,
    whitespace-delimited terms return the same rows: letter case, the
    order of the terms, repeated terms and the amount of whitespace make
    no difference. *)
Theorem search_same_terms (df : list Row) (F1 F2 : Sel) :
  search F1 ≠ "" → search F2 ≠ "" →
  (∀ t, In t (terms_of (search F1)) ↔ In t (terms_of (search F2))) →
  fst <$> render_filters df F1 = fst <$> render_filters df F2.
Proof.
  intros H1 H2 Hsame. unfold render_filters.
  destruct (String.eqb_spec (search F1) "") as [E|_]; [contradiction|].
  destruct (String.eqb_spec (search F2) "") as [E|_]; [contradiction|].
  simpl. unfold terms_of in Hsame.
  rewrite (search_loop_same_terms _ _ df Hsame).
  destruct (search_loop _ df); reflexivity.
Qed.

(** X8. Adding terms to a search can only remove rows: when every term of
    one non-empty search string is a term of another, the rows returned
    for the second are rows returned for the first. *)
Theorem search_more_terms_fewer_rows (df out1 out2 : list Row) (F1 F2 : Sel) :
  search F1 ≠ "" → search F2 ≠ "" →
  incl (terms_of (search F1)) (terms_of (search F2)) →
  render_filters df F1 = Ok (out1, F1) →
  render_filters df F2 = Ok (out2, F2) →
  incl out2 out1.
Proof.
  intros H1 H2 Hincl. unfold render_filters.
  destruct (String.eqb_spec (search F1) "") as [E|_]; [contradiction|].
  destruct (String.eqb_spec (search F2) "") as [E|_]; [contradiction|].
  simpl. unfold terms_of in Hincl.
  set (t1 := Str.split (lower (search F1))) in *.
  set (t2 := Str.split (lower (search F2))) in *.
  destruct (compiles_or_not t1) as [C1|C1];
    [|rewrite (search_loop_Raise _ _ C1); discriminate].
  destruct (compiles_or_not t2) as [C2|C2];
    [|rewrite (search_loop_Raise _ _ C2); discriminate].
  rewrite (search_loop_Ok _ _ C1), (search_loop_Ok _ _ C2). simpl.
  intros [= <-] [= <-] r [Hr Hall]%filter_In.
  apply filter_In. split; [exact Hr|].
  apply forallb_forall. intros t Ht.
  exact (proj1 (forallb_forall _ _) Hall t (Hincl t Ht)).
Qed.

End SearchExtras.

(** ** [best_per_class_and_lift]: failure *)

Section ReducerExtras.
Context {lib : Lib}.
Variable to_numeric : string → option Q.


(** X9. The reducer fails exactly on a frame that holds both a numeric
    weight and a blank one, and then with [TypeError]; on every other
    frame, the empty one included, it returns. *)
Theorem best_raises_iff_mixed (df : list Row) (e : exn) :
  best_per_class_and_lift to_numeric df = Raise e
  ↔ e = TypeError ∧ has_numeric df ∧ has_blank df.
Proof.
  rewrite <- weights_comparable_false.
  unfold best_per_class_and_lift, sort_weight_desc.
  destruct (weights_comparable df); simpl.
  - split; [discriminate|intros [_ [=]]].
  - split; [intros [= <-]; auto|intros [-> _]; reflexivity].
Qed.

End ReducerExtras.

(** ** [render_table] *)

Lemma to_int_value (x : Q) :
  is_integer x = true → (inject_Z (to_int x) == x)%Q.
Proof.
  unfold is_integer, to_int, Qeq. destruct x as [n d]. simpl.
  intros H%Z.eqb_eq. pose proof (Z.quot_rem' n (Zpos d)) as E. lia.
Qed.

Lemma show_each_Done (ws : list weight_val) (cs : list weight_cell) :
  show_each ws = Done cs →
  Forall2 (λ w c, ∃ x, w = WNum x ∧
                  c = if is_integer x then CInt (to_int x) else CFloat x)
          ws cs.
Proof.
  revert cs. induction ws as [|w ws IH]; intros cs; simpl.
  - intros [= <-]. constructor.
  - destruct w as [x|]; simpl; [|discriminate].
    destruct (show_each ws) as [cs'|]; simpl; [|discriminate].
    intros [= <-]. constructor; [eauto|apply IH; reflexivity].
Qed.


Lemma show_each_values (ws : list weight_val) (cs : list weight_cell) :
  show_each ws = Done cs →
  Forall2 (λ w c, ∃ x, w = WNum x ∧ (cell_value c == x)%Q) ws cs.
Proof.
  intros E%show_each_Done.
  induction E as [|w c ws cs (x & -> & ->) _ IH]; constructor; [|exact IH].
  exists x. split; [reflexivity|].
  destruct (is_integer x) eqn:Hx; [apply to_int_value, Hx|reflexivity].
Qed.

Lemma show_each_ints (ws : list weight_val) (cs : list weight_cell) :
  show_each ws = Done cs →
  forallb is_int_cell cs = true
  ↔ Forall (λ w, ∃ x, w = WNum x ∧ is_integer x = true) ws.
Proof.
  intros E%show_each_Done.
  induction E as [|w c ws cs (x & -> & ->) _ IH]; simpl.
  - split; constructor.
  - rewrite andb_true_iff, IH. split.
    + intros [Hc Hall]. constructor; [|exact Hall].
      exists x. split; [reflexivity|].
      destruct (is_integer x); [reflexivity|discriminate].
    + intros [(y & [= <-] & Hy) Hall]%Forall_cons. rewrite Hy. auto.
Qed.

(** X11. When the displayed [Weight] column can be built, each of its
    cells has the value of the weight it shows, and the column is of one
    kind: ints when every weight is a whole number, floats as soon as one
    weight is not. *)
Theorem show_weights_values (ws : list weight_val) (cells : list weight_cell) :
  show_weights ws = Done cells →
  Forall2 (λ w c, ∃ x, w = WNum x ∧ (cell_value c == x)%Q) ws cells
  ∧ (Forall (λ c, is_int_cell c = true) cells
     ↔ Forall (λ w, ∃ x, w = WNum x ∧ is_integer x = true) ws)
  ∧ (Forall (λ c, is_int_cell c = true) cells
     ∨ Forall (λ c, is_int_cell c = false) cells).
Proof.
  unfold show_weights. destruct (show_each ws) as [cs|] eqn:E; simpl;
    [|discriminate].
  intros [= <-]. pose proof (show_each_values _ _ E) as Hval.
  pose proof (show_each_ints _ _ E) as Hint. unfold infer_cells.
  destruct (forallb is_int_cell cs) eqn:F.
  - assert (Forall (λ c, is_int_cell c = true) cs) as Hall.
    { apply List.Forall_forall. intros c Hc.
      exact (proj1 (forallb_forall _ _) F c Hc). }
    split; [exact Hval|]. split; [|left; exact Hall].
    rewrite <- Hint. split; [reflexivity|intros _; exact Hall].
  - split; [|split].
    + clear Hint F E. induction Hval as [|w c ws cs Hw _ IH]; simpl;
        [constructor|constructor; [exact Hw|exact IH]].
    + rewrite <- Hint. split; [|discriminate].
      intros Hall. exfalso.
      apply forallb_false in F as (c & Hc & Fc).
      assert (In (CFloat (cell_value c)) ((λ c, CFloat (cell_value c)) <$> cs))
        as Hin by exact (in_map (λ c0, CFloat (cell_value c0)) cs c Hc).
      pose proof (proj1 (List.Forall_forall _ _) Hall _ Hin) as H.
      discriminate.
    + right. apply List.Forall_forall. intros c (c' & <- & _)%in_map_iff.
      reflexivity.
Qed.

Lemma zip_with_In {A B C : Type} (f : A → B → C) (l : list A) (k : list B)
    (c : C) :
  In c (zip_with f l k) → ∃ a b, In a l ∧ In b k ∧ c = f a b.
Proof.
  revert k. induction l as [|a l IH]; intros [|b k]; simpl; try tauto.
  intros [<-|H]; [eauto 8|].
  destruct (IH _ H) as (a' & b' & Ha & Hb & ->). eauto 8.
Qed.

Lemma show_equipment_label (e : string) : show_equipment e = equipment_label e.
Proof.
  unfold show_equipment, equipment_label, TABLE_EQUIPMENT.
  destruct (String.eqb_spec e "Multi-ply") as [->|H1]; [reflexivity|].
  destruct (String.eqb_spec e "Bare") as [->|H2]; [reflexivity|].
  rewrite !lookup_insert_ne, lookup_empty by congruence. reflexivity.
Qed.


Section TableExtras.
Context {lib : Lib}.
Variable to_numeric : string → option Q.


Lemma render_table_rows (filtered : list Row) (sel : Sel)
    (rows : list DisplayRow) :
  render_table to_numeric filtered sel = Done rows →
  ∀ d, In d rows → ∃ r w, In r filtered ∧ d = display_row r w.
Proof.
  unfold render_table. intros H d Hd.
  destruct (negb (String.eqb (search sel) "")); simpl in H.
  - destruct (show_weights _) as [cells|]; simpl in H; [|discriminate].
    injection H as <-. apply zip_with_In in Hd as (r & w & Hr & _ & ->). eauto.
  - destruct (best_per_class_and_lift to_numeric filtered) as [out|] eqn:E;
      simpl in H; [|discriminate].
    destruct (show_weights _) as [cells|]; simpl in H; [|discriminate].
    injection H as <-. apply zip_with_In in Hd as (r & w & Hr & _ & ->).
    exists r, w. split; [|reflexivity].
    exact (best_per_class_and_lift_incl _ _ _ E r Hr).
Qed.



(** X14. With an empty search string and an equipment label chosen, every
    row that the table shows carries that label in its Equipment column:
    the label of the selector and the label of the table agree. *)
Theorem table_equipment_is_selected_label (df filtered : list Row)
    (sel sel' : Sel) (rows : list DisplayRow) :
  search sel = "" → equipment sel ≠ "All" →
  render_filters df sel = Ok (filtered, sel') →
  render_table to_numeric filtered sel' = Done rows →
  ∀ d, In d rows → d_Equipment d = equipment sel.
Proof.
  intros Hs Ha Hf Ht d Hd.
  destruct (render_table_rows _ _ _ Ht d Hd) as (r & w & Hr & ->).
  cbn [display_row d_Equipment]. rewrite show_equipment_label.
  revert Hf. unfold render_filters, select_equipment. rewrite Hs. simpl.
  destruct (String.eqb_spec (equipment sel) "All") as [|_]; [contradiction|].
  simpl. destruct (equipment_map df !! equipment sel) as [e|] eqn:E;
    [|discriminate].
  simpl. intros [= <- _].
  apply select_eq_incl, filter_In in Hr as [_ He%String.eqb_eq].
  rewrite He. unfold equipment_map in E.
  apply (zip_dict_lookup _ _ _ _ (equipment_options_sorted df)) in E
    as (_ & E & _).
  exact E.
Qed.

End TableExtras.

(** ** [main]: the Single Lifts tab, the locations and the division selector *)

Lemma py_in_search (t s : string) : py_in t s = Re.search (literal t) s.
Proof.
  apply eq_true_iff_eq. rewrite py_in_substring, search_literal. reflexivity.
Qed.

Lemma match_here_ci_lower (p s : string) :
  match_here_ci (literal p) s =
  Re.match_here (literal (Str.lower_ascii p)) (Str.lower_ascii s).
Proof.
  revert s. induction p as [|c p IH]; intros s; [reflexivity|].
  destruct s as [|d s]; [reflexivity|].
  cbn [literal list_ascii_of_string fmap list_fmap Str.lower_ascii match_here_ci
       Re.match_here atom_matches_ci Re.atom_matches].
  fold (literal p). fold (literal (Str.lower_ascii p)). rewrite IH. reflexivity.
Qed.

Lemma search_ci_lower (p s : string) :
  search_ci (literal p) s =
  Re.search (literal (Str.lower_ascii p)) (Str.lower_ascii s).
Proof.
  induction s as [|d s IH]; cbn [search_ci Re.search Str.lower_ascii].
  - rewrite match_here_ci_lower. reflexivity.
  - rewrite match_here_ci_lower, IH. reflexivity.
Qed.

Lemma select_mask_fmap {A : Type} (f : A → bool) (l : list A) :
  select_mask l (f <$> l) = List.filter f l.
Proof.
  induction l as [|a l IH]; [reflexivity|].
  change (f <$> a :: l) with (f a :: (f <$> l)).
  cbn [select_mask List.filter]. rewrite IH. reflexivity.
Qed.

Lemma zip_with_andb_fmap {A : Type} (f g : A → bool) (l : list A) :
  zip_with andb (f <$> l) (g <$> l) = (λ a, f a && g a) <$> l.
Proof.
  induction l as [|a l IH]; [reflexivity|].
  change (f <$> a :: l) with (f a :: (f <$> l)).
  change (g <$> a :: l) with (g a :: (g <$> l)).
  change ((λ a, f a && g a) <$> a :: l)
    with ((f a && g a) :: ((λ a, f a && g a) <$> l)).
  cbn [zip_with]. rewrite IH. reflexivity.
Qed.

Lemma py_in_list_In (x : string) (xs : list string) :
  py_in_list x xs = true ↔ In x xs.
Proof.
  unfold py_in_list. rewrite existsb_exists. split.
  - intros (y & Hy & ->%String.eqb_eq). exact Hy.
  - intros H. exists x. split; [exact H|apply String.eqb_refl].
Qed.

Lemma single_lifts_filter (filtered : list Row) :
  single_lifts filtered =
  Ok (List.filter
        (λ r, (search_ci (literal "Single") (Record_Type r)
               || search_ci (literal "Bench Only") (Record_Type r)
               || search_ci (literal "Deadlift Only") (Record_Type r))
              && py_in_list (Lift r) ["Bench"; "Deadlift"]) filtered).
Proof.
  unfold single_lifts, contains_ci.
  change (compile_each (alternatives "Single|Bench Only|Deadlift Only"))
    with (Some [literal "Single"; literal "Bench Only"; literal "Deadlift Only"]).
  simpl. f_equal.
  rewrite <- list_fmap_compose, zip_with_andb_fmap, select_mask_fmap.
  apply filter_ext. intros r. simpl. rewrite orb_false_r, orb_assoc. reflexivity.
Qed.

Lemma full_power_filter (filtered : list Row) :
  full_power filtered =
  Ok (List.filter
        (λ r, negb (search_ci (literal "Single") (Record_Type r))) filtered).
Proof.
  unfold full_power, contains_ci.
  change (compile_each (alternatives "Single")) with (Some [literal "Single"]).
  simpl. f_equal.
  rewrite <- !list_fmap_compose, select_mask_fmap.
  apply filter_ext. intros r. simpl. rewrite orb_false_r. reflexivity.
Qed.

Section TabExtras.
Context {lib : Lib}.
Variable to_numeric : string → option Q.

(** X15. Every row that the Single Lifts tab shows is labelled
    "Single Lift" in its Lift Type column and has the lift Bench or
    Deadlift.  (Record types are taken to be ASCII text, on which
    [re.IGNORECASE] and [str.lower] agree.) *)
Theorem single_lifts_tab_labels (filtered single : list Row) (sel : Sel)
    (rows : list DisplayRow) :
  (∀ r, In r filtered → is_ascii (Record_Type r) = true) →
  single_lifts filtered = Ok single →
  render_table to_numeric single sel = Done rows →
  ∀ d, In d rows →
    d_Lift_Type d = "Single Lift"
    ∧ (d_Lift d = "Bench" ∨ d_Lift d = "Deadlift").
Proof.
  intros Hascii Hs Ht d Hd.
  rewrite single_lifts_filter in Hs. injection Hs as <-.
  destruct (render_table_rows _ _ _ _ Ht d Hd) as (r & w & Hr & ->).
  apply filter_In in Hr as [Hr [Hpat Hlift]%andb_true_iff].
  cbn [display_row d_Lift_Type d_Lift]. split.
  - unfold lift_type_label.
    rewrite (lower_ascii_text _ (Hascii r Hr)), !py_in_search.
    rewrite !search_ci_lower in Hpat.
    change (Str.lower_ascii "Single") with "single" in Hpat.
    change (Str.lower_ascii "Bench Only") with "bench only" in Hpat.
    change (Str.lower_ascii "Deadlift Only") with "deadlift only" in Hpat.
    rewrite Hpat. reflexivity.
  - change (py_in_list (Lift r) ["Bench"; "Deadlift"] = true) in Hlift.
    apply py_in_list_In in Hlift. simpl in Hlift.
    destruct Hlift as [<-|[<-|[]]]; auto.
Qed.

(** X18. A row of the Full Power tab has no "single" in its record type,
    in any letter case; it is labelled "Single Lift" all the same exactly
    when its record type holds "bench only" or "deadlift only", and
    "Full Power" otherwise.  (Record types are taken to be ASCII text, as
    for the Single Lifts tab.) *)
Theorem full_power_tab_labels (filtered full : list Row) (sel : Sel)
    (rows : list DisplayRow) :
  (∀ r, In r filtered → is_ascii (Record_Type r) = true) →
  full_power filtered = Ok full →
  render_table to_numeric full sel = Done rows →
  ∀ d, In d rows →
    ∃ r w, In r filtered ∧ d = display_row r w
      ∧ py_in "single" (Str.lower_ascii (Record_Type r)) = false
      ∧ d_Lift_Type d =
          if py_in "bench only" (Str.lower_ascii (Record_Type r))
             || py_in "deadlift only" (Str.lower_ascii (Record_Type r))
          then "Single Lift" else "Full Power".
Proof.
  intros Hascii Hf Ht d Hd.
  rewrite full_power_filter in Hf. injection Hf as <-.
  destruct (render_table_rows _ _ _ _ Ht d Hd) as (r & w & Hr & ->).
  apply filter_In in Hr as [Hr Hpat%negb_true_iff].
  rewrite search_ci_lower in Hpat.
  change (Str.lower_ascii "Single") with "single" in Hpat.
  rewrite <- py_in_search in Hpat.
  exists r, w. split; [exact Hr|]. split; [reflexivity|].
  split; [exact Hpat|].
  cbn [display_row d_Lift_Type]. unfold lift_type_label.
  rewrite (lower_ascii_text _ (Hascii r Hr)), Hpat. reflexivity.
Qed.

End TabExtras.

Lemma filter_other_id (a : string) (u : list string) :
  ¬ In a u → List.filter (λ y, negb (String.eqb y a)) u = u.
Proof.
  induction u as [|x u IH]; simpl; [reflexivity|]. intros H.
  destruct (String.eqb_spec x a) as [->|_]; simpl.
  - destruct H. auto.
  - rewrite IH by auto. reflexivity.
Qed.


Lemma list_sum_cons (n : nat) (l : list nat) : list_sum (n :: l) = n + list_sum l.
Proof. reflexivity. Qed.

Lemma list_sum_split (h : string → nat) (a : string) (u : list string) :
  List.NoDup u → (¬ In a u → h a = 0) →
  list_sum (h <$> u) =
  h a + list_sum (h <$> List.filter (λ y, negb (String.eqb y a)) u).
Proof.
  induction 1 as [|x u Hx Hu IH]; intros Ha.
  - simpl. rewrite Ha by auto. reflexivity.
  - cbn [List.filter]. destruct (String.eqb_spec x a) as [->|Hne]; cbn [negb].
    + rewrite (filter_other_id a u Hx). reflexivity.
    + rewrite !fmap_cons, !list_sum_cons, IH; [lia|].
      intros H. apply Ha. intros [E|E]; auto.
Qed.

Lemma group_sizes_sum {A : Type} (f : A → string) (l : list A) :
  list_sum ((λ k, List.length (List.filter (λ r, String.eqb (f r) k) l))
              <$> unique (f <$> l))
  = List.length l.
Proof.
  induction l as [|a l IH]; [reflexivity|].
  change (unique (f <$> a :: l))
    with (f a :: List.filter (λ y, negb (String.eqb y (f a))) (unique (f <$> l))).
  rewrite fmap_cons, list_sum_cons. cbn [List.filter]. rewrite String.eqb_refl.
  cbn [List.length]. rewrite <- IH.
  rewrite (list_sum_split
             (λ k, List.length (List.filter (λ r, String.eqb (f r) k) l))
             (f a) (unique (f <$> l)) (unique_NoDup _)).
  - cbn [Nat.add]. f_equal. f_equal. f_equal.
    apply map_ext_in. intros k [_ Hk]%filter_In.
    apply negb_true_iff in Hk. rewrite String.eqb_sym, Hk. reflexivity.
  - intros Hnot.
    destruct (List.filter (λ r, String.eqb (f r) (f a)) l) as [|r g] eqn:E;
      [reflexivity|].
    exfalso. apply Hnot, unique_In, in_map_iff. exists r. 
    assert (In r (List.filter (λ r, String.eqb (f r) (f a)) l)) as Hr
      by (rewrite E; left; reflexivity).
    apply filter_In in Hr as [Hr Hf%String.eqb_eq]. auto.
Qed.

Lemma count_ge_total (a b : string * nat) :
  count_ge a b = true ∨ count_ge b a = true.
Proof. unfold count_ge. rewrite !Nat.leb_le. lia. Qed.

Lemma count_ge_trans (a b c : string * nat) :
  count_ge a b = true → count_ge b c = true → count_ge a c = true.
Proof. unfold count_ge. rewrite !Nat.leb_le. lia. Qed.

Section LocationExtras.
Context {lib : Lib}.

(** X16. On a frame that has a row, the location table has one entry for
    each location text that is not blank and that a row of the frame
    carries, with the number of rows carrying exactly that text, and no
    other entry; its entries come with the largest numbers first, and the
    numbers add up to the number of rows with a non-blank location.
    (Blank is what [str.strip] empties; without a row the column may not
    be of object dtype, and [.str] then raises.) *)
Theorem location_counts_spec (filtered : list Row) :
  filtered ≠ [] →
  (∀ k n, In (k, n) (location_counts filtered)
          ↔ Str.strip k ≠ "" ∧ n ≠ 0
            ∧ n = List.length
                    (List.filter (λ r, String.eqb (Location r) k) filtered))
  ∧ List.NoDup (fst <$> location_counts filtered)
  ∧ StronglySorted (λ a b, (snd b ≤ snd a)%nat) (location_counts filtered)
  ∧ list_sum (snd <$> location_counts filtered)
    = List.length
        (List.filter (λ r, negb (String.eqb (Str.strip (Location r)) ""))
                     filtered).
Proof.
  intros _. unfold location_counts. cbv zeta.
  set (kept := List.filter
                 (λ r, negb (String.eqb (Str.strip (Location r)) "")) filtered).
  set (keys := sort_by String.leb (unique (Location <$> kept))).
  pose (size := λ k, List.length
                       (List.filter (λ r, String.eqb (Location r) k) kept)).
  change ((λ k, (k, List.length
                      (List.filter (λ r, String.eqb (Location r) k) kept)))
            <$> keys)
    with ((λ k, (k, size k)) <$> keys).
  set (sizes := (λ k, (k, size k)) <$> keys).
  pose proof (sort_by_perm (lex count_ge (by_place (count_ties sizes))) sizes)
    as Hperm.
  assert (Permutation keys (unique (Location <$> kept))) as Hkeys
    by apply sort_by_perm.
  assert (∀ k, Str.strip k ≠ "" →
            size k = List.length
                       (List.filter (λ r, String.eqb (Location r) k) filtered))
    as Hsize.
  { intros k Hk. unfold size, kept. rewrite filter_and. f_equal.
    apply filter_ext. intros r.
    destruct (String.eqb_spec (Location r) k) as [->|_];
      [|apply andb_false_r].
    destruct (String.eqb_spec (Str.strip k) "") as [E|_]; [contradiction|].
    reflexivity. }
  assert (∀ k, In k keys ↔ Str.strip k ≠ "" ∧ size k ≠ 0) as Hin.
  { intros k. unfold keys. rewrite sort_by_In, unique_In, in_map_iff. split.
    - intros (r & <- & Hr). pose proof Hr as Hr'.
      apply filter_In in Hr' as [_ Hnb]. apply negb_true_iff in Hnb.
      apply String.eqb_neq in Hnb. split; [exact Hnb|].
      unfold size.
      assert (In r (List.filter
                      (λ r0, String.eqb (Location r0) (Location r)) kept)) as H.
      { apply filter_In. split; [exact Hr|apply String.eqb_refl]. }
      destruct (List.filter _ kept); [destruct H|discriminate].
    - intros [_ Hn]. unfold size in Hn.
      destruct (List.filter (λ r, String.eqb (Location r) k) kept)
        as [|r g] eqn:E; [contradiction|].
      assert (In r (List.filter (λ r, String.eqb (Location r) k) kept)) as H
        by (rewrite E; left; reflexivity).
      apply filter_In in H as [Hr Hk%String.eqb_eq]. eauto. }
  split; [|split; [|split]].
  - intros k n. rewrite (sort_by_In _ sizes). unfold sizes.
    rewrite in_map_iff. split.
    + intros (k' & [= -> <-] & Hk). apply Hin in Hk as [Hs Hn].
      rewrite <- (Hsize k Hs). auto.
    + intros (Hs & Hn & ->). exists k. rewrite (Hsize k Hs).
      split; [reflexivity|]. apply Hin. rewrite (Hsize k Hs). auto.
  - rewrite Hperm. unfold sizes. rewrite <- list_fmap_compose.
    change (fst ∘ (λ k, (k, size k))) with (@id string).
    rewrite list_fmap_id, Hkeys. apply unique_NoDup.
  - pose proof (sort_by_sorted _
                  (lex_total _ _ count_ge_total (by_place_total (count_ties sizes)))
                  (lex_trans _ _ count_ge_trans (by_place_trans (count_ties sizes)))
                  sizes) as Hs.
    eapply StronglySorted_weaken; [|exact Hs].
    intros a b _ _ H. apply lex_fst in H. apply Nat.leb_le, H.
  - rewrite Hperm. unfold sizes. rewrite <- list_fmap_compose.
    change (snd ∘ (λ k, (k, size k))) with size.
    rewrite Hkeys. unfold size. apply (group_sizes_sum Location kept).
Qed.

End LocationExtras.

Lemma unique_idem (l : list string) : unique (unique l) = unique l.
Proof.
  pose proof (unique_NoDup l) as H. induction H as [|a u Ha Hu IH]; simpl;
    [reflexivity|].
  rewrite IH, (filter_other_id a u Ha). reflexivity.
Qed.

Lemma DIVISION_ORDER_NoDup : List.NoDup DIVISION_ORDER.
Proof.
  unfold DIVISION_ORDER.
  repeat (constructor; [simpl; intuition discriminate|]). constructor.
Qed.

(** X17. The division selector offers every division of the frame exactly
    once: [ordered_divs] holds the values of [Division_base] that occur in
    the frame, none of them twice, those of [DIVISION_ORDER] first. *)
Theorem ordered_divs_spec (df : list Row) :
  (∀ d, In d (ordered_divs df) ↔ ∃ r, In r df ∧ Division_base r = d)
  ∧ List.NoDup (ordered_divs df)
  ∧ ∃ known others,
      ordered_divs df = known ++ others
      ∧ (∀ d, In d known → In d DIVISION_ORDER)
      ∧ (∀ d, In d others → ¬ In d DIVISION_ORDER).
Proof.
  unfold ordered_divs, divs. rewrite unique_idem.
  set (u := unique (Division_base <$> df)).
  assert (∀ d, In d u ↔ ∃ r, In r df ∧ Division_base r = d) as Hu.
  { intros d. unfold u. rewrite unique_In, in_map_iff.
    split; intros (r & H1 & H2); eauto. }
  split; [|split].
  - intros d. rewrite <- Hu, in_app_iff, !filter_In, negb_true_iff.
    rewrite py_in_list_In, <- not_true_iff_false, py_in_list_In.
    destruct (in_dec string_dec d DIVISION_ORDER); tauto.
  - apply List.NoDup_app.
    + apply List.NoDup_filter, DIVISION_ORDER_NoDup.
    + apply List.NoDup_filter, unique_NoDup.
    + intros d [Hd _]%filter_In [_ Hn]%filter_In.
      apply negb_true_iff, not_true_iff_false in Hn.
      apply Hn, py_in_list_In, Hd.
  - eexists _, _. split; [reflexivity|]. split.
    + intros d [Hd _]%filter_In. exact Hd.
    + intros d [_ Hn]%filter_In Hd.
      apply negb_true_iff, not_true_iff_false in Hn.
      apply Hn, py_in_list_In, Hd.
Qed.

(** ** The further properties on the sample data *)


Lemma load_data_columns_stripped_witness :
  In eve (load_data parse_decimal sample_csv)
  ∧ Str.strip (Class eve) = Class eve
  ∧ Str.strip (Division_raw eve) = Division_raw eve.
Proof.
  assert (In eve (load_data parse_decimal sample_csv)) as H
    by (vm_compute; right; right; left; reflexivity).
  split; [exact H|].
  exact (load_data_columns_stripped parse_decimal sample_csv eve H).
Defined.

Lemma structured_filters_conjunction_witness :
  search raw_only = ""
  ∧ In (equipment raw_only) (equipment_display [ann; bob; eve])
  ∧ render_filters (lib := sample_lib) [ann; bob; eve] raw_only
    = Ok ([ann; bob], raw_only).
Proof.
  assert (equipment raw_only = "All"
          ∨ In (equipment raw_only) (equipment_display [ann; bob; eve])) as H
    by (right; vm_compute; left; reflexivity).
  split; [reflexivity|]. split; [vm_compute; left; reflexivity|].
  rewrite (structured_filters_conjunction (lib := sample_lib) [ann; bob; eve]
             raw_only eq_refl H).
  vm_compute. reflexivity.
Defined.

Lemma search_same_terms_witness :
  search (no_filters "Leeds  junior") ≠ ""
  ∧ search (no_filters "JUNIOR leeds leeds") ≠ ""
  ∧ fst <$> render_filters (lib := sample_lib) [ann; bob; eve]
              (no_filters "Leeds  junior")
    = fst <$> render_filters (lib := sample_lib) [ann; bob; eve]
                (no_filters "JUNIOR leeds leeds").
Proof.
  assert (search (no_filters "Leeds  junior") ≠ "") as H1
    by (simpl; discriminate).
  assert (search (no_filters "JUNIOR leeds leeds") ≠ "") as H2
    by (simpl; discriminate).
  split; [exact H1|]. split; [exact H2|].
  apply (search_same_terms (lib := sample_lib) [ann; bob; eve] _ _ H1 H2).
  intros t. vm_compute. tauto.
Defined.

Lemma search_more_terms_fewer_rows_witness :
  incl (terms_of (lib := sample_lib) (search (no_filters "leeds")))
       (terms_of (lib := sample_lib) (search (no_filters "leeds junior")))
  ∧ render_filters (lib := sample_lib) [ann; bob; eve] (no_filters "leeds")
    = Ok ([bob; eve], no_filters "leeds")
  ∧ render_filters (lib := sample_lib) [ann; bob; eve] (no_filters "leeds junior")
    = Ok ([bob], no_filters "leeds junior")
  ∧ incl [bob] [bob; eve].
Proof.
  assert (incl (terms_of (lib := sample_lib) (search (no_filters "leeds")))
               (terms_of (lib := sample_lib) (search (no_filters "leeds junior"))))
    as H by (intros t Ht; vm_compute in Ht |- *; tauto).
  assert (render_filters (lib := sample_lib) [ann; bob; eve] (no_filters "leeds")
          = Ok ([bob; eve], no_filters "leeds")) as E1
    by (vm_compute; reflexivity).
  assert (render_filters (lib := sample_lib) [ann; bob; eve]
            (no_filters "leeds junior")
          = Ok ([bob], no_filters "leeds junior")) as E2
    by (vm_compute; reflexivity).
  split; [exact H|]. split; [exact E1|]. split; [exact E2|].
  assert (search (no_filters "leeds") ≠ "") as N1 by (simpl; discriminate).
  assert (search (no_filters "leeds junior") ≠ "") as N2
    by (simpl; discriminate).
  exact (search_more_terms_fewer_rows (lib := sample_lib) [ann; bob; eve]
           [bob; eve] [bob] (no_filters "leeds") (no_filters "leeds junior")
           N1 N2 H E1 E2).
Defined.

Lemma show_weights_values_witness :
  show_weights [WNum 200; WNum 82.5] = Done [CFloat 200; CFloat 82.5]
  ∧ (Forall (λ c, is_int_cell c = true) [CFloat 200; CFloat 82.5]
     ∨ Forall (λ c, is_int_cell c = false) [CFloat 200; CFloat 82.5]).
Proof.
  assert (show_weights [WNum 200; WNum 82.5] = Done [CFloat 200; CFloat 82.5])
    as H by (vm_compute; reflexivity).
  split; [exact H|].
  exact (proj2 (proj2 (show_weights_values _ _ H))).
Defined.


Lemma table_equipment_is_selected_label_witness :
  render_filters (lib := sample_lib) [ann; bob; eve] raw_only
  = Ok ([ann; bob], raw_only)
  ∧ ∃ rows, render_table (lib := sample_lib) parse_decimal [ann; bob] raw_only
            = Done rows
      ∧ rows ≠ []
      ∧ ∀ d, In d rows → d_Equipment d = "Raw".
Proof.
  assert (render_filters (lib := sample_lib) [ann; bob; eve] raw_only
          = Ok ([ann; bob], raw_only)) as H by (vm_compute; reflexivity).
  split; [exact H|].
  destruct (render_table (lib := sample_lib) parse_decimal [ann; bob] raw_only)
    as [rows|e] eqn:E; [|vm_compute in E; discriminate E].
  exists rows. split; [reflexivity|]. split.
  - intros ->. vm_compute in E. discriminate E.
  - exact (table_equipment_is_selected_label (lib := sample_lib) parse_decimal
             [ann; bob; eve] [ann; bob] raw_only raw_only rows eq_refl
             ltac:(simpl; discriminate) H E).
Defined.

Lemma single_lifts_tab_labels_witness :
  single_lifts [ann; gil] = Ok [gil]
  ∧ ∃ rows, render_table (lib := sample_lib) parse_decimal [gil] (no_filters "")
            = Done rows
      ∧ rows ≠ []
      ∧ ∀ d, In d rows →
          d_Lift_Type d = "Single Lift"
          ∧ (d_Lift d = "Bench" ∨ d_Lift d = "Deadlift").
Proof.
  assert (single_lifts [ann; gil] = Ok [gil]) as H by (vm_compute; reflexivity).
  split; [exact H|].
  destruct (render_table (lib := sample_lib) parse_decimal [gil] (no_filters ""))
    as [rows|e] eqn:E; [|vm_compute in E; discriminate E].
  exists rows. split; [reflexivity|]. split.
  - intros ->. vm_compute in E. discriminate E.
  - apply (single_lifts_tab_labels (lib := sample_lib) parse_decimal [ann; gil]
             [gil] (no_filters "") rows);
      [|exact H|exact E].
    intros r [<-|[<-|[]]]; reflexivity.
Defined.

Lemma full_power_tab_labels_witness :
  full_power [ann; gil] = Ok [ann; gil]
  ∧ ∃ rows, render_table (lib := sample_lib) parse_decimal [ann; gil]
              (no_filters "") = Done rows
      ∧ rows ≠ []
      ∧ ∀ d, In d rows →
          ∃ r w, In r [ann; gil] ∧ d = display_row (lib := sample_lib) r w
            ∧ py_in "single" (Str.lower_ascii (Record_Type r)) = false
            ∧ d_Lift_Type d =
                if py_in "bench only" (Str.lower_ascii (Record_Type r))
                   || py_in "deadlift only" (Str.lower_ascii (Record_Type r))
                then "Single Lift" else "Full Power".
Proof.
  assert (full_power [ann; gil] = Ok [ann; gil]) as H
    by (vm_compute; reflexivity).
  split; [exact H|].
  destruct (render_table (lib := sample_lib) parse_decimal [ann; gil]
              (no_filters "")) as [rows|e] eqn:E;
    [|vm_compute in E; discriminate E].
  exists rows. split; [reflexivity|]. split.
  - intros ->. vm_compute in E. discriminate E.
  - apply (full_power_tab_labels (lib := sample_lib) parse_decimal [ann; gil]
             [ann; gil] (no_filters "") rows);
      [|exact H|exact E].
    intros r [<-|[<-|[]]]; reflexivity.
Defined.

Lemma location_counts_spec_witness :
  [ann; bob; eve] ≠ []
  ∧ location_counts (lib := sample_lib) [ann; bob; eve]
    = [("Leeds", 2); ("Manchester", 1)]
  ∧ (∀ k n, In (k, n) (location_counts (lib := sample_lib) [ann; bob; eve])
            ↔ Str.strip k ≠ "" ∧ n ≠ 0
              ∧ n = List.length
                      (List.filter (λ r, String.eqb (Location r) k)
                                   [ann; bob; eve]))
  ∧ List.NoDup (fst <$> location_counts (lib := sample_lib) [ann; bob; eve])
  ∧ StronglySorted (λ a b, (snd b ≤ snd a)%nat)
      (location_counts (lib := sample_lib) [ann; bob; eve])
  ∧ list_sum (snd <$> location_counts (lib := sample_lib) [ann; bob; eve])
    = List.length
        (List.filter (λ r, negb (String.eqb (Str.strip (Location r)) ""))
                     [ann; bob; eve]).
Proof.
  assert ([ann; bob; eve] ≠ []) as H by discriminate.
  split; [exact H|]. split; [vm_compute; reflexivity|].
  exact (location_counts_spec (lib := sample_lib) [ann; bob; eve] H).
Defined.
